(** * current_time.py: the local time printer

    A shallow embedding of
    [skills/default/current-time-from-script/scripts/current_time.py]:

<<
    def main() -> None:
        now = datetime.now().astimezone()
        print(now.strftime("%Y-%m-%d %H:%M:%S %Z (%z)"))

    if __name__ == "__main__":
        main()
>>

    The script is two calls into CPython's [datetime] module, so the
    embedding follows the module's reference implementation
    (Lib/datetime.py) for the functions on the script's path: the field
    checks of the constructors, [_wrap_strftime], the calendar helpers
    and datetime subtraction.  Python [str] values are modelled as
    [string], one [ascii] per code point (the Latin-1 range); a
    [timedelta] is modelled by its total number of microseconds, which is
    what [timedelta._to_microseconds] computes. *)

From Stdlib Require Import ZArith String Ascii List Bool Lia.
Import ListNotations.

Local Open Scope string_scope.
Local Open Scope Z_scope.

(* ================================================================== *)
(** ** Text helpers *)

Module Text.

(** The newline character written by [print]. *)
Definition nl : ascii := "010"%char.

Definition is_pct (c : ascii) : bool := Ascii.eqb c "%"%char.

(** [str.isdecimal] on one character: what [\d] accepts. *)
Definition is_decimal (c : ascii) : bool :=
  let n := nat_of_ascii c in (48 <=? n)%nat && (n <=? 57)%nat.

(** [str.isspace] on one character: TAB, LF, VT, FF, CR, the separators
    FS GS RS US, SPACE, NEL and NBSP.  [\S] is its complement. *)
Definition is_space (c : ascii) : bool :=
  let n := nat_of_ascii c in
  ((9 <=? n)%nat && (n <=? 13)%nat) || ((28 <=? n)%nat && (n <=? 32)%nat)
  || (n =? 133)%nat || (n =? 160)%nat.

Fixpoint all_chars (p : ascii -> bool) (s : string) : bool :=
  match s with
  | EmptyString => true
  | String c s' => p c && all_chars p s'
  end.

Fixpoint repeat_char (c : ascii) (n : nat) : string :=
  match n with
  | O => ""
  | S k => String c (repeat_char c k)
  end.

(** The character of a decimal digit value. *)
Definition digit (d : Z) : ascii := ascii_of_N (48 + Z.to_N d).

(** Decimal rendering of a non-negative integer, most significant digit
    first.  The fuel bounds the number of digits. *)
Fixpoint decimal_fuel (fuel : nat) (n : Z) : string :=
  match fuel with
  | O => ""
  | S f =>
      if n <? 10 then String (digit n) ""
      else decimal_fuel f (n / 10) ++ String (digit (n mod 10)) ""
  end.

Definition decimal (n : Z) : string :=
  decimal_fuel (S (Z.to_nat (Z.log2 n))) n.

Definition zfill (w : nat) (s : string) : string :=
  repeat_char "0" (w - String.length s) ++ s.

(** ["%0<w>d" % n]: zero-filled to width [w], the sign counted in. *)
Definition fmt_0d (w : nat) (n : Z) : string :=
  if n <? 0 then String "-" (zfill (w - 1) (decimal (- n)))
  else zfill w (decimal n).

(** The text that follows the last occurrence of [c] in [s], [acc] when
    there is none. *)
Fixpoint after_last (c : ascii) (s : string) (acc : option string)
  : option string :=
  match s with
  | EmptyString => acc
  | String a s' =>
      if Ascii.eqb a c then after_last c s' (Some s') else after_last c s' acc
  end.

(** The value of a decimal digit character. *)
Definition digit_val (c : ascii) : option Z :=
  if is_decimal c then Some (Z.of_nat (nat_of_ascii c) - 48) else None.

(** Reads exactly [n] decimal digits off the front of [s]. *)
Fixpoint read_digits (n : nat) (acc : Z) (s : string) : option (Z * string) :=
  match n with
  | O => Some (acc, s)
  | S k =>
      match s with
      | EmptyString => None
      | String c s' =>
          match digit_val c with
          | Some d => read_digits k (10 * acc + d) s'
          | None => None
          end
      end
  end.

(** Reads the literal character [c]. *)
Definition read_char (c : ascii) (s : string) : option string :=
  match s with
  | String a s' => if Ascii.eqb a c then Some s' else None
  | EmptyString => None
  end.

End Text.

(* ================================================================== *)
(** ** Regular expressions

    The output pattern of the specification is a regular expression; it is
    given a language and decided with Brzozowski derivatives. *)

Module Regex.

Inductive regex : Type :=
| Void
| Eps
| Class (p : ascii -> bool)
| Cat (a b : regex)
| Alt (a b : regex)
| Star (a : regex).

Definition Chr (c : ascii) : regex := Class (Ascii.eqb c).
Definition Opt (r : regex) : regex := Alt Eps r.

(** [seq [r1; ...; rn]] is [r1 r2 ... rn]. *)
Fixpoint seq (rs : list regex) : regex :=
  match rs with
  | [] => Eps
  | r :: rs' => Cat r (seq rs')
  end.

Fixpoint nullable (r : regex) : bool :=
  match r with
  | Void => false
  | Eps => true
  | Class _ => false
  | Cat a b => nullable a && nullable b
  | Alt a b => nullable a || nullable b
  | Star _ => true
  end.

Fixpoint deriv (c : ascii) (r : regex) : regex :=
  match r with
  | Void => Void
  | Eps => Void
  | Class p => if p c then Eps else Void
  | Cat a b =>
      if nullable a then Alt (Cat (deriv c a) b) (deriv c b)
      else Cat (deriv c a) b
  | Alt a b => Alt (deriv c a) (deriv c b)
  | Star a => Cat (deriv c a) (Star a)
  end.

(** Whole-string match. *)
Fixpoint matches (r : regex) (s : string) : bool :=
  match s with
  | EmptyString => nullable r
  | String c s' => matches (deriv c r) s'
  end.

(** The language of a regular expression. *)
Inductive Lang : regex -> string -> Prop :=
| LEps : Lang Eps ""
| LClass p c : p c = true -> Lang (Class p) (String c "")
| LCat a b s1 s2 : Lang a s1 -> Lang b s2 -> Lang (Cat a b) (s1 ++ s2)
| LAltL a b s : Lang a s -> Lang (Alt a b) s
| LAltR a b s : Lang b s -> Lang (Alt a b) s
| LStar0 a : Lang (Star a) ""
| LStarS a s1 s2 : Lang a s1 -> Lang (Star a) s2 -> Lang (Star a) (s1 ++ s2).

End Regex.

(* ================================================================== *)
(** ** Exceptions and results *)

Inductive exn : Type :=
| OSError
| OverflowError
| ValueError
| TypeError.

Inductive result (A : Type) : Type :=
| Ok (a : A)
| Raise (e : exn).

Arguments Ok {A} a.
Arguments Raise {A} e.

Definition rbind {A B : Type} (r : result A) (k : A -> result B) : result B :=
  match r with
  | Ok a => k a
  | Raise e => Raise e
  end.

Definition obind {A B : Type} (o : option A) (k : A -> option B) : option B :=
  match o with
  | Some a => k a
  | None => None
  end.

Declare Scope result_scope.
Delimit Scope result_scope with result.
Notation "'try' x <- r ; k" := (rbind r (fun x => k))
  (at level 10, x pattern, r at level 100, k at level 200) : result_scope.

Declare Scope option_scope.
Delimit Scope option_scope with option.
Notation "'let?' x := o 'in' k" := (obind o (fun x => k))
  (at level 10, x pattern, o at level 100, k at level 200) : option_scope.

(* ================================================================== *)
(** ** The datetime module (Lib/datetime.py) *)

Module Datetime.

Import Text.

Definition MINYEAR : Z := 1.
Definition MAXYEAR : Z := 9999.

(** *** Calendar helpers *)

Definition _is_leap (year : Z) : bool :=
  (year mod 4 =? 0) && (negb (year mod 100 =? 0) || (year mod 400 =? 0)).

Definition _days_before_year (year : Z) : Z :=
  let y := year - 1 in
  y * 365 + y / 4 - y / 100 + y / 400.

Definition _DAYS_IN_MONTH (month : Z) : Z :=
  match month with
  | 1 => 31 | 2 => 28 | 3 => 31 | 4 => 30 | 5 => 31 | 6 => 30
  | 7 => 31 | 8 => 31 | 9 => 30 | 10 => 31 | 11 => 30 | 12 => 31
  | _ => -1
  end.

Definition _DAYS_BEFORE_MONTH (month : Z) : Z :=
  match month with
  | 1 => 0 | 2 => 31 | 3 => 59 | 4 => 90 | 5 => 120 | 6 => 151
  | 7 => 181 | 8 => 212 | 9 => 243 | 10 => 273 | 11 => 304 | 12 => 334
  | _ => -1
  end.

Definition _days_in_month (year month : Z) : Z :=
  if (month =? 2) && _is_leap year then 29 else _DAYS_IN_MONTH month.

Definition _days_before_month (year month : Z) : Z :=
  _DAYS_BEFORE_MONTH month + (if (2 <? month) && _is_leap year then 1 else 0).

Definition _ymd2ord (year month day : Z) : Z :=
  _days_before_year year + _days_before_month year month + day.

(** *** timedelta

    A duration, held as its total number of microseconds; [days],
    [seconds] and [microseconds] are the normalised attributes
    ([0 <= seconds < 86400], [0 <= microseconds < 1000000]). *)

Record timedelta : Type := Timedelta { _to_microseconds : Z }.

Definition timedelta_new (days seconds microseconds : Z) : timedelta :=
  Timedelta ((days * 86400 + seconds) * 1000000 + microseconds).

Definition td_days (t : timedelta) : Z := _to_microseconds t / 86400000000.
Definition td_seconds (t : timedelta) : Z :=
  (_to_microseconds t mod 86400000000) / 1000000.
Definition td_microseconds (t : timedelta) : Z :=
  _to_microseconds t mod 1000000.

Definition td_neg (t : timedelta) : timedelta :=
  Timedelta (- _to_microseconds t).
Definition td_add (a b : timedelta) : timedelta :=
  Timedelta (_to_microseconds a + _to_microseconds b).
Definition td_sub (a b : timedelta) : timedelta :=
  Timedelta (_to_microseconds a - _to_microseconds b).
Definition td_ltb (a b : timedelta) : bool :=
  _to_microseconds a <? _to_microseconds b.
Definition td_leb (a b : timedelta) : bool :=
  _to_microseconds a <=? _to_microseconds b.

(** [divmod(a, b)] on two timedeltas: an integer and a timedelta. *)
Definition td_divmod (a b : timedelta) : Z * timedelta :=
  (_to_microseconds a / _to_microseconds b,
   Timedelta (_to_microseconds a mod _to_microseconds b)).

Definition one_hour : timedelta := timedelta_new 0 3600 0.
Definition one_minute : timedelta := timedelta_new 0 60 0.

(** *** timezone: a fixed offset with a name *)

Record timezone : Type := { _offset : timedelta; _name : string }.

(** [timezone(offset, name)]: the offset lies strictly between minus and
    plus 24 hours. *)
Definition timezone_new (offset : timedelta) (name : string) : result timezone :=
  if td_leb (td_neg (timedelta_new 0 86400 (-1))) offset
     && td_leb offset (timedelta_new 0 86400 (-1))
  then Ok {| _offset := offset; _name := name |}
  else Raise ValueError.

(** *** datetime *)

Record datetime : Type := {
  year : Z; month : Z; day : Z;
  hour : Z; minute : Z; second : Z; microsecond : Z;
  tzinfo : option timezone
}.

Definition _check_date_fields (year month day : Z) : result unit :=
  if negb ((MINYEAR <=? year) && (year <=? MAXYEAR)) then Raise ValueError
  else if negb ((1 <=? month) && (month <=? 12)) then Raise ValueError
  else if negb ((1 <=? day) && (day <=? _days_in_month year month))
  then Raise ValueError
  else Ok tt.

Definition _check_time_fields (hour minute second microsecond : Z)
  : result unit :=
  if negb ((0 <=? hour) && (hour <=? 23)) then Raise ValueError
  else if negb ((0 <=? minute) && (minute <=? 59)) then Raise ValueError
  else if negb ((0 <=? second) && (second <=? 59)) then Raise ValueError
  else if negb ((0 <=? microsecond) && (microsecond <=? 999999))
  then Raise ValueError
  else Ok tt.

(** [datetime(year, month, day, hour, minute, second, microsecond, tzinfo)] *)
Definition datetime_new (y m d hh mm ss us : Z) (tz : option timezone)
  : result datetime :=
  (try _ <- _check_date_fields y m d;
   try _ <- _check_time_fields hh mm ss us;
   Ok {| year := y; month := m; day := d;
         hour := hh; minute := mm; second := ss; microsecond := us;
         tzinfo := tz |})%result.

(** What the two field checks accept. *)
Definition valid_fields (y m d hh mm ss us : Z) : Prop :=
  MINYEAR <= y <= MAXYEAR /\ 1 <= m <= 12 /\ 1 <= d <= _days_in_month y m /\
  0 <= hh <= 23 /\ 0 <= mm <= 59 /\ 0 <= ss <= 59 /\ 0 <= us <= 999999.

(** [self.replace(microsecond=us, tzinfo=tz)]: a new datetime from the
    fields of [self], through the constructor. *)
Definition replace (self : datetime) (us : Z) (tz : option timezone)
  : result datetime :=
  datetime_new (year self) (month self) (day self)
               (hour self) (minute self) (second self) us tz.

Definition utcoffset (self : datetime) : option timedelta :=
  option_map _offset (tzinfo self).

Definition tzname (self : datetime) : option string :=
  option_map _name (tzinfo self).

Definition toordinal (self : datetime) : Z :=
  _ymd2ord (year self) (month self) (day self).

(** [self - other] for two datetimes: both naive or both aware. *)
Definition datetime_sub (self other : datetime) : result timedelta :=
  let days1 := toordinal self in
  let days2 := toordinal other in
  let secs1 := second self + minute self * 60 + hour self * 3600 in
  let secs2 := second other + minute other * 60 + hour other * 3600 in
  let base := timedelta_new (days1 - days2) (secs1 - secs2)
                            (microsecond self - microsecond other) in
  match utcoffset self, utcoffset other with
  | None, None => Ok base
  | Some myoff, Some otoff => Ok (td_sub (td_add base otoff) myoff)
  | _, _ => Raise TypeError
  end.

(** *** struct_time and [time.strftime] *)

Record struct_time : Type := {
  tm_year : Z; tm_mon : Z; tm_mday : Z;
  tm_hour : Z; tm_min : Z; tm_sec : Z;
  tm_wday : Z; tm_yday : Z; tm_isdst : Z
}.

Definition _build_struct_time (y m d hh mm ss dstflag : Z) : struct_time :=
  let wday := (_ymd2ord y m d + 6) mod 7 in
  let dnum := _days_before_month y m + d in
  {| tm_year := y; tm_mon := m; tm_mday := d;
     tm_hour := hh; tm_min := mm; tm_sec := ss;
     tm_wday := wday; tm_yday := dnum; tm_isdst := dstflag |}.

(** A fixed-offset [timezone] has no daylight saving information, so
    [dst()] is [None] and the flag is [-1]. *)
Definition timetuple (self : datetime) : struct_time :=
  _build_struct_time (year self) (month self) (day self)
                     (hour self) (minute self) (second self) (-1).

(** [time.strftime] on the conversions the script uses and [%%].  [%Y] is
    the year with century zero-filled to four digits, as [strftime] is
    documented for datetimes (0001 to 9999); C libraries that do not fill
    print the same text from year 1000 on.  The others are two-digit
    zero-filled numbers; a conversion outside this table is refused with
    [ValueError]. *)
Definition conversion (c : ascii) (t : struct_time) : result string :=
  if Ascii.eqb c "Y" then Ok (fmt_0d 4 (tm_year t))
  else if Ascii.eqb c "m" then Ok (fmt_0d 2 (tm_mon t))
  else if Ascii.eqb c "d" then Ok (fmt_0d 2 (tm_mday t))
  else if Ascii.eqb c "H" then Ok (fmt_0d 2 (tm_hour t))
  else if Ascii.eqb c "M" then Ok (fmt_0d 2 (tm_min t))
  else if Ascii.eqb c "S" then Ok (fmt_0d 2 (tm_sec t))
  else if Ascii.eqb c "%" then Ok "%"
  else Raise ValueError.

Fixpoint time_strftime (format : string) (t : struct_time) : result string :=
  match format with
  | EmptyString => Ok ""
  | String ch rest =>
      if is_pct ch then
        match rest with
        | EmptyString => Raise ValueError
        | String ch2 rest2 =>
            (try s <- conversion ch2 t;
             try out <- time_strftime rest2 t;
             Ok (s ++ out))%result
        end
      else
        (try out <- time_strftime rest t; Ok (String ch out))%result
  end.

(** [s.replace('%', '%%')] *)
Fixpoint escape_pct (s : string) : string :=
  match s with
  | EmptyString => ""
  | String c s' =>
      if is_pct c then String "%" (String "%" (escape_pct s'))
      else String c (escape_pct s')
  end.

(** The [%z] replacement of [_wrap_strftime]: the sign, then hours and
    minutes of the magnitude of the offset, then its seconds and
    microseconds when it has any. *)
Definition render_offset (sign : ascii) (offset : timedelta) : string :=
  let '(h, rest) := td_divmod offset one_hour in
  let '(m, rest) := td_divmod rest one_minute in
  let s := td_seconds rest in
  let u := td_microseconds offset in
  if negb (u =? 0) then
    String sign (fmt_0d 2 h ++ fmt_0d 2 m ++ fmt_0d 2 s
                 ++ String "." (fmt_0d 6 u))
  else if negb (s =? 0) then
    String sign (fmt_0d 2 h ++ fmt_0d 2 m ++ fmt_0d 2 s)
  else
    String sign (fmt_0d 2 h ++ fmt_0d 2 m).

Definition zreplace (object : datetime) : string :=
  match utcoffset object with
  | None => ""
  | Some offset =>
      if td_days offset <? 0 then render_offset "-" (td_neg offset)
      else render_offset "+" offset
  end.

(** The [%Z] replacement of [_wrap_strftime]. *)
Definition Zreplace (object : datetime) : string :=
  match tzname object with
  | None => ""
  | Some s => escape_pct s
  end.

(** The [%f] replacement of [_wrap_strftime]. *)
Definition freplace (object : datetime) : string :=
  fmt_0d 6 (microsecond object).

(** [_wrap_strftime]: substitutes [%f], [%z] and [%Z] and hands the rest
    of the format to [time.strftime]. *)
Fixpoint _wrap_newformat (object : datetime) (format : string) : string :=
  match format with
  | EmptyString => ""
  | String ch rest =>
      if is_pct ch then
        match rest with
        | EmptyString => "%"
        | String ch2 rest2 =>
            if Ascii.eqb ch2 "f" then
              freplace object ++ _wrap_newformat object rest2
            else if Ascii.eqb ch2 "z" then
              zreplace object ++ _wrap_newformat object rest2
            else if Ascii.eqb ch2 "Z" then
              Zreplace object ++ _wrap_newformat object rest2
            else String "%" (String ch2 (_wrap_newformat object rest2))
        end
      else String ch (_wrap_newformat object rest)
  end.

Definition _wrap_strftime (object : datetime) (format : string)
  (t : struct_time) : result string :=
  time_strftime (_wrap_newformat object format) t.

(** [datetime.strftime] *)
Definition strftime (self : datetime) (fmt : string) : result string :=
  _wrap_strftime self fmt (timetuple self).

End Datetime.

(* ================================================================== *)
(** ** The process: host, effects, [main] and the script *)

Module Process.

Import Text Datetime.

(** What the platform hands to [datetime.now().astimezone()]: the
    broken-down local time of the clock reading with its microseconds,
    and the offset east of UTC in seconds and zone name that [localtime]
    reports for it ([tm_gmtoff], [tm_zone]). *)
Record reading : Type := {
  r_year : Z; r_mon : Z; r_mday : Z;
  r_hour : Z; r_min : Z; r_sec : Z; r_usec : Z;
  r_gmtoff : Z; r_zone : string
}.

(** The host of one run.  [clock k] is what the [k]-th evaluation of the
    clock and timezone subsystem yields: a reading or a fault. *)
Record Host : Type := {
  argv : list string;
  environ : list (string * string);
  files : list (string * string);
  clock : nat -> result reading
}.

Inductive fd : Type := Stdout | Stderr.

(** Observable effects: text reaching a standard stream, and the
    interpreter's report of an uncaught exception on standard error. *)
Inductive event : Type :=
| Write (f : fd) (s : string)
| Traceback (e : exn).

Record state : Type := {
  reads : nat;            (* clock evaluations so far *)
  trace : list event      (* effects so far, oldest first *)
}.

Definition initial : state := {| reads := 0; trace := [] |}.

(** Computations of the script: they see the host, thread the state and
    may raise. *)
Definition M (A : Type) : Type := Host -> state -> result A * state.

Definition ret {A : Type} (a : A) : M A := fun _ st => (Ok a, st).

Definition bind {A B : Type} (m : M A) (k : A -> M B) : M B :=
  fun h st =>
    match m h st with
    | (Ok a, st') => k a h st'
    | (Raise e, st') => (Raise e, st')
    end.

Definition lift {A : Type} (r : result A) : M A := fun _ st => (r, st).

Declare Scope proc_scope.
Delimit Scope proc_scope with proc.
Notation "x <- m ;; k" := (bind m (fun x => k))
  (at level 61, m at next level, right associativity) : proc_scope.

(** One evaluation of the platform clock. *)
Definition read_clock : M reading :=
  fun h st =>
    (clock h (reads st), {| reads := S (reads st); trace := trace st |}).

(** [print(s)]: the text and a newline go to standard output. *)
Definition print (s : string) : M unit :=
  fun _ st =>
    (Ok tt, {| reads := reads st;
               trace := trace st ++ [Write Stdout (s ++ String nl "")] |}).

(** The value of [datetime.now().astimezone()] on a reading.  [now()]
    builds the naive local datetime, clamping a leap second; the local
    zone is [timezone(timedelta(seconds=gmtoff), zone)], and the result
    carries the same wall-clock fields with that zone attached. *)
Definition aware_of_reading (r : reading) : result datetime :=
  (try naive <- datetime_new (r_year r) (r_mon r) (r_mday r)
                             (r_hour r) (r_min r) (Z.min (r_sec r) 59)
                             (r_usec r) None;
   try tz <- timezone_new (timedelta_new 0 (r_gmtoff r) 0) (r_zone r);
   datetime_new (year naive) (month naive) (day naive)
                (hour naive) (minute naive) (second naive)
                (microsecond naive) (Some tz))%result.

Definition now_astimezone : M datetime :=
  (r <- read_clock ;; lift (aware_of_reading r))%proc.

Definition FORMAT : string := "%Y-%m-%d %H:%M:%S %Z (%z)".

Definition main : M unit :=
  (now <- now_astimezone ;;
   line <- lift (strftime now FORMAT) ;;
   print line)%proc.

(** What a run leaves behind. *)
Record outcome : Type := {
  exit_status : Z;
  effects : list event;
  clock_reads : nat;
  uncaught : option exn
}.

(** [if __name__ == "__main__": main()]: the interpreter runs [main];
    an exception that reaches the top level is reported on standard error
    and the exit status is 1, otherwise it is 0. *)
Definition script (h : Host) : outcome :=
  match main h initial with
  | (Ok _, st) =>
      {| exit_status := 0; effects := trace st;
         clock_reads := reads st; uncaught := None |}
  | (Raise e, st) =>
      {| exit_status := 1; effects := trace st ++ [Traceback e];
         clock_reads := reads st; uncaught := Some e |}
  end.

(** The texts written to one stream, in order. *)
Fixpoint written (f : fd) (es : list event) : list string :=
  match es with
  | [] => []
  | Write Stdout s :: es' =>
      match f with Stdout => s :: written f es' | Stderr => written f es' end
  | Write Stderr s :: es' =>
      match f with Stderr => s :: written f es' | Stdout => written f es' end
  | Traceback _ :: es' => written f es'
  end.

(** Everything a run wrote to standard output. *)
Definition stdout_text (o : outcome) : string :=
  String.concat "" (written Stdout (effects o)).

(** The local timestamp of a run: the value [now] is bound to. *)
Definition local_timestamp (h : Host) : result datetime :=
  rbind (clock h 0%nat) aware_of_reading.

End Process.

(* ================================================================== *)
(** ** The observations of the specification *)

Module Spec.

Import Text Regex Datetime Process.

Definition d : regex := Class is_decimal.
Definition nonspace : regex := Class (fun c => negb (is_space c)).

(** [^\d{4}-\d{2}-\d{2} \d{2}:\d{2}:\d{2} \S* \([+-]\d{4}\)\n$], matched
    against the whole of standard output.  Without the MULTILINE flag [$]
    holds at the end of the text and just before a newline that ends it,
    which is the optional last newline here. *)
Definition output_regex : regex :=
  seq [d; d; d; d; Chr "-"; d; d; Chr "-"; d; d; Chr " ";
       d; d; Chr ":"; d; d; Chr ":"; d; d; Chr " ";
       Star nonspace; Chr " ";
       Chr "("; Alt (Chr "+") (Chr "-"); d; d; d; d; Chr ")";
       Chr nl; Opt (Chr nl)].

(** The date/time portion of a printed line: its first 19 characters. *)
Definition date_time_portion (out : string) : string := substring 0 19 out.

(** The inverse of [%Y-%m-%d %H:%M:%S] on the fixed-width layout: the
    fields are read back and handed to the [datetime] constructor. *)
Definition parse_date_time (s : string) (tz : option timezone)
  : option datetime :=
  (let? (y, s) := read_digits 4 0 s in
   let? s := read_char "-" s in
   let? (m, s) := read_digits 2 0 s in
   let? s := read_char "-" s in
   let? (dd, s) := read_digits 2 0 s in
   let? s := read_char " " s in
   let? (hh, s) := read_digits 2 0 s in
   let? s := read_char ":" s in
   let? (mm, s) := read_digits 2 0 s in
   let? s := read_char ":" s in
   let? (ss, s) := read_digits 2 0 s in
   match s with
   | EmptyString =>
       match datetime_new y m dd hh mm ss 0 tz with
       | Ok p => Some p
       | Raise _ => None
       end
   | String _ _ => None
   end)%option.

(** The offset field of the output: the text after the last opening
    parenthesis. *)
Definition offset_field (out : string) : option string :=
  after_last "(" out None.

(** Reads [+HHMM] or [-HHMM], with an optional [SS], followed by the
    closing parenthesis and the newline; the result is the offset as a
    timedelta. *)
Definition parse_offset (z : string) : option timedelta :=
  match z with
  | EmptyString => None
  | String c s =>
      (let? sign := (if Ascii.eqb c "+" then Some 1
                     else if Ascii.eqb c "-" then Some (-1) else None) in
       let? (hh, s) := read_digits 2 0 s in
       let? (mm, s) := read_digits 2 0 s in
       let? (ss, s) := (match read_digits 2 0 s with
                        | Some r => Some r
                        | None => Some (0, s)
                        end) in
       let? s := read_char ")" s in
       let? s := read_char nl s in
       match s with
       | EmptyString =>
           if (mm <? 60) && (ss <? 60)
           then Some (timedelta_new 0 (sign * (hh * 3600 + mm * 60 + ss)) 0)
           else None
       | String _ _ => None
       end)%option
  end.

(** The aware timestamp read back from a whole printed line: its
    date/time portion with the offset of its offset field. *)
Definition parse_line (out : string) : option datetime :=
  (let? z := offset_field out in
   let? off := parse_offset z in
   parse_date_time (date_time_portion out)
                   (Some {| _offset := off; _name := "" |}))%option.

(** [a <= b] on two datetimes, through their difference. *)
Definition datetime_le (a b : datetime) : Prop :=
  exists t, datetime_sub a b = Ok t /\ _to_microseconds t <= 0.

(** The signed four-digit rendering [+HHMM] / [-HHMM] of an offset given
    in seconds. *)
Definition sign_char (gmtoff : Z) : ascii :=
  if gmtoff <? 0 then "-"%char else "+"%char.

Definition hhmm (gmtoff : Z) : string :=
  String (sign_char gmtoff)
         (fmt_0d 2 (Z.abs gmtoff / 3600)
          ++ fmt_0d 2 (Z.abs gmtoff mod 3600 / 60)).

(** The rendering of an offset of [gmtoff] seconds: [hhmm], followed by
    the two-digit seconds when there are any. *)
Definition offset_text (gmtoff : Z) : string :=
  hhmm gmtoff ++ (if Z.abs gmtoff mod 60 =? 0 then ""
                  else fmt_0d 2 (Z.abs gmtoff mod 60)).

(** Two and four zero-filled decimal digits. *)
Definition two (n : Z) : string :=
  String (digit (n / 10)) (String (digit (n mod 10)) "").

Definition four (n : Z) : string :=
  String (digit (n / 1000))
    (String (digit (n / 100 mod 10))
       (String (digit (n / 10 mod 10)) (String (digit (n mod 10)) ""))).

(** The layout [YYYY-MM-DD HH:MM:SS]. *)
Definition date_time_text (y m dd hh mm ss : Z) : string :=
  four y ++ "-" ++ two m ++ "-" ++ two dd ++ " "
  ++ two hh ++ ":" ++ two mm ++ ":" ++ two ss.

(** The line the layout of the specification gives for a reading: date
    and time, zone name, offset in parentheses. *)
Definition expected_line (r : reading) : string :=
  date_time_text (r_year r) (r_mon r) (r_mday r)
                 (r_hour r) (r_min r) (Z.min (r_sec r) 59)
  ++ " " ++ r_zone r ++ " (" ++ offset_text (r_gmtoff r) ++ ")".


End Spec.

(* ================================================================== *)
(** ** Sample hosts *)

Module Samples.

Import Datetime Process.

Definition host_of (args : list string) (r : result reading) : Host :=
  {| argv := args; environ := []; files := []; clock := fun _ => r |}.

Definition reading_of (y m dd hh mm ss us gmtoff : Z) (zone : string)
  : reading :=
  {| r_year := y; r_mon := m; r_mday := dd; r_hour := hh; r_min := mm;
     r_sec := ss; r_usec := us; r_gmtoff := gmtoff; r_zone := zone |}.

(** 2024-03-15 14:07:42.123456 in Pacific Daylight Time. *)
Definition host_pdt : Host :=
  host_of [] (Ok (reading_of 2024 3 15 14 7 42 123456 (-25200) "PDT")).


(** The same second, later in its microseconds. *)
Definition host_pdt_late : Host :=
  host_of [] (Ok (reading_of 2024 3 15 14 7 42 999999 (-25200) "PDT")).

(** A zone whose name has spaces, as Windows reports them. *)
Definition host_spaces : Host :=
  host_of [] (Ok (reading_of 2024 1 15 9 30 0 0 (-28800)
                             "Pacific Standard Time")).

(** An offset of 19 minutes 32 seconds, as [TZ=LMT-0:19:32] gives. *)
Definition host_lmt : Host :=
  host_of [] (Ok (reading_of 2024 3 15 14 7 42 0 1172 "LMT")).

(** A zone without a display name, at UTC. *)
Definition host_noname : Host :=
  host_of [] (Ok (reading_of 2024 3 15 14 7 42 0 0 "")).

(** A zone without a display name, 19 minutes 32 seconds east. *)
Definition host_noname_lmt : Host :=
  host_of [] (Ok (reading_of 2024 3 15 14 7 42 0 1172 "")).

(** The last second of daylight saving time and the first second after
    the clocks went back: one second apart. *)
Definition host_before_fallback : Host :=
  host_of [] (Ok (reading_of 2024 11 3 1 59 59 500000 (-25200) "PDT")).

Definition host_after_fallback : Host :=
  host_of [] (Ok (reading_of 2024 11 3 1 0 0 500000 (-28800) "PST")).

(** A host whose clock faults on the first reading only. *)
Definition host_fault : Host :=
  {| argv := []; environ := []; files := [];
     clock := fun k =>
       match k with
       | O => Raise OSError
       | S _ => Ok (reading_of 2024 3 15 14 7 42 0 0 "UTC")
       end |}.

End Samples.

(* ================================================================== *)
(** ** Further observations and hosts *)

Module Lines.

Import Text Datetime Process Samples.

(** The number of occurrences of a character in a text. *)
Fixpoint count_char (c : ascii) (s : string) : nat :=
  match s with
  | EmptyString => O
  | String a s' =>
      if Ascii.eqb a c then S (count_char c s') else count_char c s'
  end.



(** A leap second: 23:59:60 on the last day of 2016. *)
Definition host_leap : Host :=
  host_of [] (Ok (reading_of 2016 12 31 23 59 60 250000 0 "UTC")).

(** A zone name with percent signs in it. *)
Definition host_percent : Host :=
  host_of [] (Ok (reading_of 2024 3 15 14 7 42 0 3600 "100%Z %d")).

End Lines.

(* ================================================================== *)
(** * Properties *)

(** ** Text *)

Module TextFacts.

Import Text.

Lemma append_assoc (a b c : string) : (a ++ b) ++ c = a ++ (b ++ c).
Proof. induction a as [|x a IH]; simpl; [reflexivity | now rewrite IH]. Qed.

Lemma append_empty_r (a : string) : a ++ "" = a.
Proof. induction a as [|x a IH]; simpl; [reflexivity | now rewrite IH]. Qed.

Lemma all_chars_app p (a b : string) :
  all_chars p (a ++ b) = all_chars p a && all_chars p b.
Proof.
  induction a as [|x a IH]; simpl; [reflexivity|].
  now rewrite IH, andb_assoc.
Qed.

Lemma all_chars_impl (p q : ascii -> bool) (s : string) :
  (forall c, p c = true -> q c = true) ->
  all_chars p s = true -> all_chars q s = true.
Proof.
  intros Hpq. induction s as [|x s IH]; simpl; [reflexivity|].
  intros H. apply andb_true_iff in H as [Hx Hs].
  now rewrite (Hpq _ Hx), IH.
Qed.

(** A digit value is one of ten. *)
Lemma digit_range_cases (d : Z) :
  0 <= d <= 9 ->
  d = 0 \/ d = 1 \/ d = 2 \/ d = 3 \/ d = 4 \/
  d = 5 \/ d = 6 \/ d = 7 \/ d = 8 \/ d = 9.
Proof. lia. Qed.

Ltac each_digit H :=
  apply digit_range_cases in H;
  repeat (destruct H as [H|H]); subst; reflexivity.

Lemma digit_is_decimal (d : Z) : 0 <= d <= 9 -> is_decimal (digit d) = true.
Proof. intros H. each_digit H. Qed.

Lemma digit_val_digit (d : Z) : 0 <= d <= 9 -> digit_val (digit d) = Some d.
Proof. intros H. each_digit H. Qed.

(** Decimal characters are neither the percent sign, the opening
    parenthesis nor white space. *)
Lemma decimal_char_cases (c : ascii) :
  is_decimal c = true ->
  is_pct c = false /\ Ascii.eqb c "(" = false /\ is_space c = false.
Proof.
  destruct c as [[] [] [] [] [] [] [] []]; vm_compute;
    intros H; try discriminate H; repeat split.
Qed.

Lemma decimal_not_pct (s : string) :
  all_chars is_decimal s = true ->
  all_chars (fun c => negb (is_pct c)) s = true.
Proof.
  apply all_chars_impl. intros c H.
  now destruct (decimal_char_cases c H) as (-> & _ & _).
Qed.

Lemma decimal_not_paren (s : string) :
  all_chars is_decimal s = true ->
  all_chars (fun c => negb (Ascii.eqb c "(")) s = true.
Proof.
  apply all_chars_impl. intros c H.
  now destruct (decimal_char_cases c H) as (_ & -> & _).
Qed.

(** *** Decimal rendering *)

Lemma decimal_fuel_lt10 (f : nat) (n : Z) :
  n < 10 -> decimal_fuel (S f) n = String (digit n) "".
Proof.
  intros H. simpl. destruct (Z.ltb_spec n 10); [reflexivity | lia].
Qed.

Lemma decimal_fuel_ge10 (f : nat) (n : Z) :
  10 <= n ->
  decimal_fuel (S f) n = decimal_fuel f (n / 10) ++ String (digit (n mod 10)) "".
Proof.
  intros H. simpl. destruct (Z.ltb_spec n 10); [lia | reflexivity].
Qed.

(** The fuel of [decimal] covers the digits of the number. *)
Lemma log2_fuel (n : Z) (k : nat) :
  2 ^ Z.of_nat k <= n -> exists f, Z.to_nat (Z.log2 n) = (k + f)%nat.
Proof.
  intros H.
  assert (Hk : Z.of_nat k <= Z.log2 n).
  { rewrite <- (Z.log2_pow2 (Z.of_nat k)) by lia. now apply Z.log2_le_mono. }
  exists (Z.to_nat (Z.log2 n) - k)%nat. lia.
Qed.

Lemma decimal_1 (n : Z) : n < 10 -> decimal n = String (digit n) "".
Proof. intros H. unfold decimal. now apply decimal_fuel_lt10. Qed.

Lemma decimal_2 (n : Z) :
  10 <= n < 100 ->
  decimal n = String (digit (n / 10)) (String (digit (n mod 10)) "").
Proof.
  intros H. unfold decimal.
  destruct (log2_fuel n 3) as [f ->]; [simpl; lia|].
  rewrite decimal_fuel_ge10 by lia.
  change (3 + f)%nat with (S (2 + f))%nat.
  rewrite decimal_fuel_lt10; [reflexivity|].
  apply Z.div_lt_upper_bound; lia.
Qed.

Lemma decimal_3 (n : Z) :
  100 <= n < 1000 ->
  decimal n = String (digit (n / 100))
                (String (digit (n / 10 mod 10)) (String (digit (n mod 10)) "")).
Proof.
  intros H. unfold decimal.
  destruct (log2_fuel n 6) as [f ->]; [simpl; lia|].
  assert (10 <= n / 10 < 100).
  { split; [apply Z.div_le_lower_bound | apply Z.div_lt_upper_bound]; lia. }
  rewrite decimal_fuel_ge10 by lia.
  change (6 + f)%nat with (S (S (4 + f)))%nat.
  rewrite decimal_fuel_ge10 by lia.
  rewrite decimal_fuel_lt10.
  - rewrite Z.div_div by lia. reflexivity.
  - apply Z.div_lt_upper_bound; lia.
Qed.

Lemma decimal_4 (n : Z) :
  1000 <= n < 10000 ->
  decimal n = String (digit (n / 1000))
                (String (digit (n / 100 mod 10))
                   (String (digit (n / 10 mod 10))
                      (String (digit (n mod 10)) ""))).
Proof.
  intros H. unfold decimal.
  destruct (log2_fuel n 9) as [f ->]; [simpl; lia|].
  assert (100 <= n / 10 < 1000).
  { split; [apply Z.div_le_lower_bound | apply Z.div_lt_upper_bound]; lia. }
  assert (10 <= n / 10 / 10 < 100).
  { split; [apply Z.div_le_lower_bound | apply Z.div_lt_upper_bound]; lia. }
  rewrite decimal_fuel_ge10 by lia.
  change (9 + f)%nat with (S (S (S (6 + f))))%nat.
  rewrite decimal_fuel_ge10 by lia.
  rewrite decimal_fuel_ge10 by lia.
  rewrite decimal_fuel_lt10.
  - rewrite !Z.div_div by lia. reflexivity.
  - apply Z.div_lt_upper_bound; lia.
Qed.

(** ["%02d"] of a number below 100 is its two decimal digits. *)
Lemma fmt_0d_2 (n : Z) :
  0 <= n < 100 ->
  fmt_0d 2 n = String (digit (n / 10)) (String (digit (n mod 10)) "").
Proof.
  intros H. unfold fmt_0d.
  destruct (Z.ltb_spec n 0); [lia|].
  destruct (Z_lt_le_dec n 10).
  - rewrite decimal_1 by lia.
    rewrite Z.div_small, Z.mod_small by lia. reflexivity.
  - rewrite decimal_2 by lia. reflexivity.
Qed.

(** ["%04d"] of a number below 10000 is its four decimal digits. *)
Lemma fmt_0d_4 (n : Z) :
  0 <= n < 10000 ->
  fmt_0d 4 n = String (digit (n / 1000))
                 (String (digit (n / 100 mod 10))
                    (String (digit (n / 10 mod 10))
                       (String (digit (n mod 10)) ""))).
Proof.
  intros H. unfold fmt_0d.
  destruct (Z.ltb_spec n 0); [lia|].
  destruct (Z_lt_le_dec n 10); [|destruct (Z_lt_le_dec n 100);
                                  [|destruct (Z_lt_le_dec n 1000)]].
  - rewrite decimal_1 by lia.
    rewrite (Z.div_small n 1000), (Z.div_small n 100), (Z.div_small n 10),
      (Z.mod_small n 10) by lia.
    reflexivity.
  - rewrite decimal_2 by lia.
    rewrite (Z.div_small n 1000), (Z.div_small n 100) by lia.
    rewrite (Z.mod_small (n / 10) 10); [reflexivity|].
    split; [apply Z.div_pos | apply Z.div_lt_upper_bound]; lia.
  - rewrite decimal_3 by lia.
    rewrite (Z.div_small n 1000) by lia.
    rewrite (Z.mod_small (n / 100) 10); [reflexivity|].
    split; [apply Z.div_pos | apply Z.div_lt_upper_bound]; lia.
  - rewrite decimal_4 by lia. reflexivity.
Qed.

Lemma div_mod_digit (n k : Z) : 0 < k -> 0 <= n -> 0 <= n / k mod 10 <= 9.
Proof. intros Hk Hn. pose proof (Z.mod_pos_bound (n / k) 10). lia. Qed.

Lemma mod_digit (n : Z) : 0 <= n mod 10 <= 9.
Proof. pose proof (Z.mod_pos_bound n 10). lia. Qed.

Lemma div_digit (n k : Z) : 0 < k -> 0 <= n < 10 * k -> 0 <= n / k <= 9.
Proof.
  intros Hk Hn. split; [apply Z.div_pos; lia|].
  assert (n / k < 10) by (apply Z.div_lt_upper_bound; lia). lia.
Qed.

(** *** Reading digits back *)

Lemma read_two (n : Z) (s : string) :
  0 <= n < 100 ->
  read_digits 2 0 (String (digit (n / 10)) (String (digit (n mod 10)) s))
  = Some (n, s).
Proof.
  intros H. cbn [read_digits].
  rewrite (digit_val_digit (n / 10)) by (apply div_digit; lia).
  rewrite (digit_val_digit (n mod 10)) by apply mod_digit.
  do 2 f_equal. pose proof (Z.div_mod n 10). lia.
Qed.

Lemma read_four (n : Z) (s : string) :
  0 <= n < 10000 ->
  read_digits 4 0
    (String (digit (n / 1000))
       (String (digit (n / 100 mod 10))
          (String (digit (n / 10 mod 10)) (String (digit (n mod 10)) s))))
  = Some (n, s).
Proof.
  intros H. cbn [read_digits].
  rewrite (digit_val_digit (n / 1000)) by (apply div_digit; lia).
  rewrite (digit_val_digit (n / 100 mod 10)) by (apply div_mod_digit; lia).
  rewrite (digit_val_digit (n / 10 mod 10)) by (apply div_mod_digit; lia).
  rewrite (digit_val_digit (n mod 10)) by apply mod_digit.
  do 2 f_equal.
  pose proof (Z.div_mod n 10). pose proof (Z.div_mod (n / 10) 10).
  pose proof (Z.div_mod (n / 100) 10).
  assert (n / 10 / 10 = n / 100) by (rewrite Z.div_div by lia; reflexivity).
  assert (n / 100 / 10 = n / 1000) by (rewrite Z.div_div by lia; reflexivity).
  lia.
Qed.

(** Reading two digits fails on a text that starts with no digit. *)
Lemma read_two_none (c : ascii) (s : string) :
  is_decimal c = false -> read_digits 2 0 (String c s) = None.
Proof. intros H. cbn [read_digits]. unfold digit_val. now rewrite H. Qed.

(** *** The text after the last occurrence of a character *)

Lemma after_last_absent (c : ascii) (s : string) (acc : option string) :
  all_chars (fun x => negb (Ascii.eqb x c)) s = true ->
  after_last c s acc = acc.
Proof.
  revert acc. induction s as [|x s IH]; simpl; intros acc H; [reflexivity|].
  apply andb_true_iff in H as [Hx Hs].
  apply negb_true_iff in Hx. rewrite Hx. now apply IH.
Qed.

Lemma after_last_app (c : ascii) (a b : string) (acc : option string) :
  all_chars (fun x => negb (Ascii.eqb x c)) b = true ->
  after_last c (a ++ String c b) acc = Some b.
Proof.
  intros Hb. revert acc. induction a as [|x a IH]; simpl; intros acc.
  - rewrite Ascii.eqb_refl. now apply after_last_absent.
  - destruct (Ascii.eqb x c); apply IH.
Qed.

End TextFacts.

(** ** Regular expressions: the matcher decides the language *)

Module RegexFacts.

Import Text Regex TextFacts.

Lemma append_eq_empty (a b : string) : a ++ b = "" -> a = "" /\ b = "".
Proof. destruct a; simpl; [auto | discriminate]. Qed.

Lemma lang_nullable (r : regex) (s : string) :
  Lang r s -> s = "" -> nullable r = true.
Proof.
  induction 1 as [ | p x Hp | a b s1 s2 Ha IHa Hb IHb | a b s Ha IHa
                 | a b s Hb IHb | a | a s1 s2 Ha IHa Hs IHs ];
    intros E; simpl; try reflexivity; try discriminate.
  - apply append_eq_empty in E as [-> ->]. now rewrite IHa, IHb.
  - now rewrite IHa.
  - rewrite IHb by assumption. apply orb_true_r.
Qed.

Lemma nullable_lang (r : regex) : nullable r = true -> Lang r "".
Proof.
  induction r as [ | | p | a IHa b IHb | a IHa b IHb | a IHa ]; simpl; intros H;
    try discriminate.
  - constructor.
  - apply andb_true_iff in H as [Ha Hb].
    change "" with ("" ++ ""). constructor; auto.
  - apply orb_true_iff in H as [Ha | Hb]; [apply LAltL | apply LAltR]; auto.
  - constructor.
Qed.

Lemma lang_deriv (r : regex) (s0 : string) :
  Lang r s0 -> forall c s, s0 = String c s -> Lang (deriv c r) s.
Proof.
  induction 1 as [ | p x Hp | a b s1 s2 Ha IHa Hb IHb | a b s' Ha IHa
                 | a b s' Hb IHb | a | a s1 s2 Ha IHa Hs IHs ];
    intros c s E; simpl.
  - discriminate.
  - injection E as -> <-. rewrite Hp. constructor.
  - destruct s1 as [|x s1]; simpl in E.
    + rewrite (lang_nullable a "" Ha eq_refl). apply LAltR. now apply IHb.
    + injection E as -> <-.
      assert (Lang (Cat (deriv c a) b) (s1 ++ s2)) by (constructor; auto).
      destruct (nullable a); [apply LAltL|]; assumption.
  - apply LAltL; auto.
  - apply LAltR; auto.
  - discriminate.
  - destruct s1 as [|x s1]; simpl in E.
    + exact (IHs c s E).
    + injection E as -> <-. constructor; auto.
Qed.

Lemma deriv_lang (r : regex) :
  forall c s, Lang (deriv c r) s -> Lang r (String c s).
Proof.
  induction r as [ | | p | a IHa b IHb | a IHa b IHb | a IHa ];
    simpl; intros c s H.
  - inversion H.
  - inversion H.
  - destruct (p c) eqn:Hp; inversion H; subst. now constructor.
  - assert (Hcat : forall t, Lang (Cat (deriv c a) b) t ->
                             Lang (Cat a b) (String c t)).
    { intros t Ht. inversion Ht as [ | | a' b' s1 s2 H1 H2 | | | | ]; subst.
      change (String c (s1 ++ s2)) with (String c s1 ++ s2).
      constructor; auto. }
    destruct (nullable a) eqn:Hn.
    + inversion H as [ | | | a' b' s' H1 | a' b' s' H1 | | ]; subst.
      * now apply Hcat.
      * change (String c s) with ("" ++ String c s).
        constructor; [now apply nullable_lang | auto].
    + now apply Hcat.
  - inversion H; subst; [apply LAltL | apply LAltR]; auto.
  - inversion H as [ | | a' b' s1 s2 H1 H2 | | | | ]; subst.
    change (String c (s1 ++ s2)) with (String c s1 ++ s2).
    constructor; auto.
Qed.

(** The derivative matcher accepts exactly the language. *)
Theorem matches_iff (r : regex) (s : string) :
  matches r s = true <-> Lang r s.
Proof.
  revert r. induction s as [|c s IH]; intros r; simpl.
  - split; [apply nullable_lang | intros H; now apply (lang_nullable r "")].
  - rewrite IH. split; [apply deriv_lang | intros H; now apply (lang_deriv r _ H)].
Qed.

(** *** Building members of a sequence *)

Lemma lang_cons (p : ascii -> bool) (c : ascii) (r : regex) (s : string) :
  p c = true -> Lang r s -> Lang (Cat (Class p) r) (String c s).
Proof.
  intros Hp Hr. change (String c s) with (String c "" ++ s).
  constructor; [now constructor | assumption].
Qed.

Lemma lang_chr (c : ascii) (r : regex) (s : string) :
  Lang r s -> Lang (Cat (Chr c) r) (String c s).
Proof. intros Hr. apply lang_cons; [apply Ascii.eqb_refl | assumption]. Qed.

Lemma lang_star_class (p : ascii -> bool) (s : string) :
  all_chars p s = true -> Lang (Star (Class p)) s.
Proof.
  induction s as [|c s IH]; simpl; intros H; [constructor|].
  apply andb_true_iff in H as [Hc Hs].
  change (String c s) with (String c "" ++ s).
  constructor; [now constructor | auto].
Qed.

Lemma lang_star_app (p : ascii -> bool) (name : string) (r : regex) (s : string) :
  all_chars p name = true -> Lang r s ->
  Lang (Cat (Star (Class p)) r) (name ++ s).
Proof. intros Hn Hr. constructor; [now apply lang_star_class | assumption]. Qed.

End RegexFacts.

(** ** The datetime module *)

Module DatetimeFacts.

Import Text Datetime Spec TextFacts.

Local Arguments fmt_0d : simpl never.

(** *** Constructors *)

Lemma days_in_month_le_31 (y m : Z) : _days_in_month y m <= 31.
Proof.
  unfold _days_in_month. destruct ((m =? 2) && _is_leap y); [lia|].
  unfold _DAYS_IN_MONTH.
  destruct m as [|p|p]; try lia.
  do 4 (try (destruct p as [p|p|]; simpl; try lia)).
Qed.

Lemma datetime_new_ok (y m d hh mm ss us : Z) (tz : option timezone)
  (x : datetime) :
  datetime_new y m d hh mm ss us tz = Ok x <->
  valid_fields y m d hh mm ss us /\
  x = {| year := y; month := m; day := d; hour := hh; minute := mm;
         second := ss; microsecond := us; tzinfo := tz |}.
Proof.
  unfold datetime_new, _check_date_fields, _check_time_fields, valid_fields,
    MINYEAR, MAXYEAR.
  repeat match goal with
         | |- context [?a <=? ?b] => destruct (Z.leb_spec a b)
         end; simpl; split;
    try (intros E; discriminate E);
    try (intros [E _]; exfalso; lia).
  - intros E. injection E as <-. split; [lia | reflexivity].
  - intros [_ ->]. reflexivity.
Qed.

Lemma timezone_new_ok (g : Z) (name : string) (tz : timezone) :
  timezone_new (timedelta_new 0 g 0) name = Ok tz <->
  -86400 < g < 86400 /\
  tz = {| _offset := timedelta_new 0 g 0; _name := name |}.
Proof.
  unfold timezone_new, td_leb, td_neg, timedelta_new. cbn [_to_microseconds].
  repeat match goal with
         | |- context [?a <=? ?b] => destruct (Z.leb_spec a b)
         end; simpl; split;
    try (intros E; discriminate E);
    try (intros [E _]; exfalso; lia).
  - intros E. injection E as <-. split; [lia | reflexivity].
  - intros [_ ->]. reflexivity.
Qed.

(** *** [time.strftime] on substituted text *)

Lemma time_strftime_escape (name fmt : string) (t : struct_time) :
  time_strftime (escape_pct name ++ fmt) t
  = rbind (time_strftime fmt t) (fun out => Ok (name ++ out)).
Proof.
  induction name as [|c name IH]; simpl.
  - destruct (time_strftime fmt t); reflexivity.
  - destruct (is_pct c) eqn:Hc; simpl.
    + unfold is_pct in Hc. apply Ascii.eqb_eq in Hc. subst c.
      rewrite IH. destruct (time_strftime fmt t); reflexivity.
    + rewrite Hc, IH. destruct (time_strftime fmt t); reflexivity.
Qed.

Lemma time_strftime_plain (z fmt : string) (t : struct_time) :
  all_chars (fun c => negb (is_pct c)) z = true ->
  time_strftime (z ++ fmt) t
  = rbind (time_strftime fmt t) (fun out => Ok (z ++ out)).
Proof.
  induction z as [|c z IH]; simpl; intros H.
  - destruct (time_strftime fmt t); reflexivity.
  - apply andb_true_iff in H as [Hc Hz]. apply negb_true_iff in Hc.
    rewrite Hc, (IH Hz). destruct (time_strftime fmt t); reflexivity.
Qed.

(** The conversions of the script's format, in front of any rest. *)
Lemma time_strftime_date_time (rest : string) (t : struct_time) :
  time_strftime ("%Y-%m-%d %H:%M:%S " ++ rest) t
  = rbind (time_strftime rest t)
      (fun out =>
         Ok (fmt_0d 4 (tm_year t) ++ "-" ++ fmt_0d 2 (tm_mon t) ++ "-"
             ++ fmt_0d 2 (tm_mday t) ++ " " ++ fmt_0d 2 (tm_hour t) ++ ":"
             ++ fmt_0d 2 (tm_min t) ++ ":" ++ fmt_0d 2 (tm_sec t) ++ " "
             ++ out)).
Proof. simpl. destruct (time_strftime rest t); reflexivity. Qed.

(** The format after the substitutions of [_wrap_strftime]. *)
Lemma wrap_newformat_FORMAT (now : datetime) :
  _wrap_newformat now "%Y-%m-%d %H:%M:%S %Z (%z)"
  = "%Y-%m-%d %H:%M:%S " ++ Zreplace now ++ " (" ++ zreplace now ++ ")".
Proof. reflexivity. Qed.

(** *** The offset rendering *)

Lemma days_negative (x : Z) : (x / 86400000000 <? 0) = (x <? 0).
Proof.
  destruct (Z.ltb_spec x 0) as [Hx|Hx].
  - apply Z.ltb_lt. apply Z.div_lt_upper_bound; lia.
  - apply Z.ltb_ge. apply Z.div_pos; lia.
Qed.

Lemma mod_3600_60 (a : Z) : (a mod 3600) mod 60 = a mod 60.
Proof.
  rewrite (Z.div_mod a 3600) at 2 by lia.
  replace (3600 * (a / 3600) + a mod 3600)
    with (a mod 3600 + (60 * (a / 3600)) * 60) by lia.
  now rewrite Z.mod_add by lia.
Qed.

Lemma render_offset_seconds (sign : ascii) (a : Z) :
  0 <= a < 86400 ->
  render_offset sign (Timedelta (a * 1000000))
  = String sign (fmt_0d 2 (a / 3600) ++ fmt_0d 2 (a mod 3600 / 60)
                 ++ (if a mod 60 =? 0 then "" else fmt_0d 2 (a mod 60))).
Proof.
  intros Ha.
  unfold render_offset, td_divmod, one_hour, one_minute, timedelta_new,
    td_seconds, td_microseconds.
  cbn [_to_microseconds].
  change ((0 * 86400 + 3600) * 1000000 + 0) with (3600 * 1000000).
  change ((0 * 86400 + 60) * 1000000 + 0) with (60 * 1000000).
  rewrite Z.div_mul_cancel_r, Z.mul_mod_distr_r by lia.
  rewrite Z.div_mul_cancel_r, Z.mul_mod_distr_r by lia.
  rewrite mod_3600_60, Z.mod_mul by lia.
  pose proof (Z.mod_pos_bound a 60).
  rewrite (Z.mod_small (a mod 60 * 1000000)) by lia.
  rewrite Z.div_mul by lia.
  cbn [Z.eqb negb].
  destruct (a mod 60 =? 0); cbn [negb]; [|reflexivity].
  now rewrite append_empty_r.
Qed.

Lemma zreplace_seconds (now : datetime) (g : Z) (name : string) :
  -86400 < g < 86400 ->
  tzinfo now = Some {| _offset := timedelta_new 0 g 0; _name := name |} ->
  zreplace now = offset_text g.
Proof.
  intros Hg Htz. unfold zreplace, utcoffset. rewrite Htz. cbn [option_map _offset].
  unfold td_days, td_neg, timedelta_new. cbn [_to_microseconds].
  rewrite days_negative. unfold offset_text, hhmm, sign_char.
  replace ((0 * 86400 + g) * 1000000 + 0 <? 0) with (g <? 0)
    by (destruct (Z.ltb_spec g 0), (Z.ltb_spec ((0 * 86400 + g) * 1000000 + 0) 0);
        try reflexivity; lia).
  destruct (Z.ltb_spec g 0) as [Hneg|Hpos].
  - replace (- ((0 * 86400 + g) * 1000000 + 0)) with (Z.abs g * 1000000) by lia.
    rewrite render_offset_seconds by lia. cbn [append].
    now rewrite append_assoc.
  - replace ((0 * 86400 + g) * 1000000 + 0) with (Z.abs g * 1000000) by lia.
    rewrite render_offset_seconds by lia. cbn [append].
    now rewrite append_assoc.
Qed.

End DatetimeFacts.

(** ** The script *)

Module ProcessFacts.

Import Text Regex Datetime Process Spec TextFacts RegexFacts DatetimeFacts.

Local Arguments fmt_0d : simpl never.

Lemma fmt_0d_two (n : Z) : 0 <= n < 100 -> fmt_0d 2 n = two n.
Proof. apply fmt_0d_2. Qed.

Lemma fmt_0d_four (n : Z) : 0 <= n < 10000 -> fmt_0d 4 n = four n.
Proof. apply fmt_0d_4. Qed.

Lemma two_decimal (n : Z) : 0 <= n < 100 -> all_chars is_decimal (two n) = true.
Proof.
  intros H. unfold two. cbn [all_chars].
  rewrite (digit_is_decimal (n / 10)) by (apply div_digit; lia).
  rewrite (digit_is_decimal (n mod 10)) by apply mod_digit.
  reflexivity.
Qed.

(** What a successful [datetime.now().astimezone()] returns. *)
Lemma aware_of_reading_ok (r : reading) (now : datetime) :
  aware_of_reading r = Ok now ->
  valid_fields (r_year r) (r_mon r) (r_mday r) (r_hour r) (r_min r)
               (Z.min (r_sec r) 59) (r_usec r) /\
  -86400 < r_gmtoff r < 86400 /\
  now = {| year := r_year r; month := r_mon r; day := r_mday r;
           hour := r_hour r; minute := r_min r;
           second := Z.min (r_sec r) 59; microsecond := r_usec r;
           tzinfo := Some {| _offset := timedelta_new 0 (r_gmtoff r) 0;
                             _name := r_zone r |} |}.
Proof.
  unfold aware_of_reading. intros H.
  destruct (datetime_new _ _ _ _ _ _ _ None) as [naive|e] eqn:Hn;
    [|discriminate H].
  apply datetime_new_ok in Hn as [Hv ->]. cbn [rbind] in H.
  destruct (timezone_new _ _) as [tz|e] eqn:Htz; [|discriminate H].
  apply timezone_new_ok in Htz as [Hg ->]. cbn [rbind] in H.
  cbn [year month day hour minute second microsecond] in H.
  apply datetime_new_ok in H as [_ ->]. auto.
Qed.

(** The rendering of a valid aware datetime with the script's format. *)
Lemma strftime_FORMAT (y m dd hh mm ss us g : Z) (name : string) :
  valid_fields y m dd hh mm ss us ->
  -86400 < g < 86400 ->
  strftime {| year := y; month := m; day := dd; hour := hh; minute := mm;
              second := ss; microsecond := us;
              tzinfo := Some {| _offset := timedelta_new 0 g 0;
                                _name := name |} |} FORMAT
  = Ok (date_time_text y m dd hh mm ss ++ " " ++ name ++ " ("
        ++ offset_text g ++ ")").
Proof.
  intros Hv Hg. unfold strftime, _wrap_strftime, FORMAT.
  rewrite wrap_newformat_FORMAT.
  rewrite zreplace_seconds with (g := g) (name := name)
    by (assumption || reflexivity).
  unfold Zreplace, tzname. cbn [tzinfo option_map _name].
  rewrite time_strftime_date_time, time_strftime_escape.
  cbn [append]. cbn [time_strftime is_pct Ascii.eqb Bool.eqb].
  assert (Hz : all_chars (fun c => negb (is_pct c)) (offset_text g) = true).
  { unfold offset_text, hhmm, sign_char.
    assert (Ha : 0 <= Z.abs g < 86400) by lia.
    assert (0 <= Z.abs g / 3600 < 100)
      by (split; [apply Z.div_pos | apply Z.div_lt_upper_bound]; lia).
    assert (0 <= Z.abs g mod 3600 / 60 < 100).
    { pose proof (Z.mod_pos_bound (Z.abs g) 3600).
      split; [apply Z.div_pos | apply Z.div_lt_upper_bound]; lia. }
    pose proof (Z.mod_pos_bound (Z.abs g) 60).
    rewrite !fmt_0d_two by lia.
    cbn [append all_chars]. rewrite !all_chars_app.
    rewrite !decimal_not_pct by (apply two_decimal; lia).
    destruct (g <? 0), (Z.abs g mod 60 =? 0); try reflexivity;
      rewrite ?fmt_0d_two by lia;
      rewrite ?decimal_not_pct by (apply two_decimal; lia); reflexivity. }
  rewrite (time_strftime_plain _ _ _ Hz).
  cbn [time_strftime is_pct Ascii.eqb Bool.eqb rbind].
  unfold timetuple, _build_struct_time.
  cbn [tm_year tm_mon tm_mday tm_hour tm_min tm_sec year month day hour
       minute second].
  unfold valid_fields, MINYEAR, MAXYEAR in Hv.
  pose proof (days_in_month_le_31 y m).
  rewrite fmt_0d_four by lia. rewrite !fmt_0d_two by lia.
  unfold date_time_text. rewrite !append_assoc. reflexivity.
Qed.


(** A run on a host whose clock yields a reading the constructors
    accept: one line on standard output, exit status 0. *)
Lemma script_run (h : Host) (r : reading) (now : datetime) :
  clock h 0%nat = Ok r -> aware_of_reading r = Ok now ->
  script h = {| exit_status := 0;
                effects := [Write Stdout (expected_line r ++ String nl "")];
                clock_reads := 1; uncaught := None |}.
Proof.
  intros Hc Ha.
  destruct (aware_of_reading_ok r now Ha) as (Hv & Hg & Hnow).
  unfold script, main, now_astimezone, bind, read_clock, lift, print, initial.
  cbn [reads trace]. rewrite Hc, Ha, Hnow.
  rewrite (strftime_FORMAT _ _ _ _ _ _ _ _ _ Hv Hg).
  reflexivity.
Qed.

(** A run on a host whose clock faults. *)
Lemma script_clock_fault (h : Host) (e : exn) :
  clock h 0%nat = Raise e ->
  script h = {| exit_status := 1; effects := [Traceback e];
                clock_reads := 1; uncaught := Some e |}.
Proof.
  intros Hc.
  unfold script, main, now_astimezone, bind, read_clock, lift, initial.
  cbn [reads trace]. rewrite Hc. reflexivity.
Qed.



Lemma stdout_text_run (h : Host) (r : reading) (now : datetime) :
  clock h 0%nat = Ok r -> aware_of_reading r = Ok now ->
  stdout_text (script h) = expected_line r ++ String nl "".
Proof. intros Hc Ha. now rewrite (script_run h r now Hc Ha). Qed.

End ProcessFacts.

(** ** The offset field *)

Module OffsetFacts.

Import Text Regex Datetime Process Spec TextFacts RegexFacts DatetimeFacts
       ProcessFacts.

Local Arguments fmt_0d : simpl never.

Lemma abs_mod_60 (g : Z) : Z.abs g mod 60 = 0 <-> g mod 60 = 0.
Proof. Z.div_mod_to_equations. lia. Qed.

Lemma offset_parts (g : Z) :
  -86400 < g < 86400 ->
  0 <= Z.abs g / 3600 < 24 /\ 0 <= Z.abs g mod 3600 / 60 < 60 /\
  0 <= Z.abs g mod 60 < 60 /\
  Z.abs g = Z.abs g / 3600 * 3600 + Z.abs g mod 3600 / 60 * 60
            + Z.abs g mod 60.
Proof. intros H. Z.div_mod_to_equations. lia. Qed.

(** A whole number of minutes renders as sign and four digits. *)
Lemma offset_text_whole (g : Z) :
  -86400 < g < 86400 -> g mod 60 = 0 ->
  offset_text g
  = String (sign_char g) (two (Z.abs g / 3600) ++ two (Z.abs g mod 3600 / 60)).
Proof.
  intros Hg Hm. destruct (offset_parts g Hg) as (Hh & Hmm & Hs & _).
  apply abs_mod_60 in Hm. unfold offset_text, hhmm. rewrite Hm.
  rewrite !fmt_0d_two by lia. cbn [Z.eqb append].
  now rewrite append_empty_r.
Qed.

(** Otherwise the seconds follow: sign and six digits. *)
Lemma offset_text_seconds (g : Z) :
  -86400 < g < 86400 -> g mod 60 <> 0 ->
  offset_text g
  = String (sign_char g) (two (Z.abs g / 3600) ++ two (Z.abs g mod 3600 / 60)
                          ++ two (Z.abs g mod 60)).
Proof.
  intros Hg Hm. destruct (offset_parts g Hg) as (Hh & Hmm & Hs & _).
  rewrite <- abs_mod_60 in Hm. unfold offset_text, hhmm.
  destruct (Z.eqb_spec (Z.abs g mod 60) 0) as [E|_]; [contradiction|].
  rewrite !fmt_0d_two by lia. cbn [append].
  now rewrite append_assoc.
Qed.

End OffsetFacts.

(* ================================================================== *)
(** * The claims of the specification *)

Module Claims.

Import Text Regex Datetime Process Spec Samples.
Import TextFacts RegexFacts DatetimeFacts ProcessFacts OffsetFacts.

Local Arguments fmt_0d : simpl never.

(** Ranges of the digits of the fields the constructors accept. *)
Ltac digit_goal :=
  first [ apply mod_digit
        | apply div_mod_digit; lia
        | apply div_digit; lia ].

Ltac decimal_cons :=
  apply lang_cons; [apply digit_is_decimal; digit_goal|].

Lemma lang_sign (g : Z) (r : regex) (s : string) :
  Lang r s ->
  Lang (Cat (Alt (Chr "+") (Chr "-")) r) (String (sign_char g) s).
Proof.
  intros H. change (String (sign_char g) s) with (String (sign_char g) "" ++ s).
  constructor; [|assumption].
  unfold sign_char. destruct (g <? 0); [apply LAltR | apply LAltL];
    now constructor.
Qed.

Lemma lang_end : Lang (seq [Chr nl; Opt (Chr nl)]) (String nl "").
Proof.
  cbn [seq]. apply lang_chr. change "" with ("" ++ "").
  constructor; [apply LAltL|]; constructor.
Qed.

(** The expected line of a reading with a name free of white space and a
    whole-minute offset is in the language of the output pattern. *)
Lemma expected_line_lang (r : reading) :
  valid_fields (r_year r) (r_mon r) (r_mday r) (r_hour r) (r_min r)
               (Z.min (r_sec r) 59) (r_usec r) ->
  -86400 < r_gmtoff r < 86400 ->
  all_chars (fun c => negb (is_space c)) (r_zone r) = true ->
  r_gmtoff r mod 60 = 0 ->
  Lang output_regex (expected_line r ++ String nl "").
Proof.
  intros Hv Hg Hz Hm.
  unfold valid_fields, MINYEAR, MAXYEAR in Hv.
  pose proof (days_in_month_le_31 (r_year r) (r_mon r)).
  destruct (offset_parts _ Hg) as (Hh & Hmm & _ & _).
  unfold expected_line. rewrite (offset_text_whole _ Hg Hm).
  unfold date_time_text, two, four. rewrite !append_assoc. cbn [append].
  unfold output_regex, d, nonspace. cbn [seq].
  do 4 decimal_cons. apply lang_chr.
  do 2 decimal_cons. apply lang_chr.
  do 2 decimal_cons. apply lang_chr.
  do 2 decimal_cons. apply lang_chr.
  do 2 decimal_cons. apply lang_chr.
  do 2 decimal_cons. apply lang_chr.
  apply lang_star_app; [exact Hz|].
  do 2 apply lang_chr. apply lang_sign.
  do 4 decimal_cons. apply lang_chr.
  apply lang_end.
Qed.

(** C1, as amended.  When the clock read succeeds, the zone name the
    platform reports has no white-space character and the UTC offset is
    a whole number of minutes, everything the run writes to standard
    output matches
    [^\d{4}-\d{2}-\d{2} \d{2}:\d{2}:\d{2} \S* \([+-]\d{4}\)\n$]. *)
Theorem output_matches_regex (h : Host) (r : reading) (now : datetime) :
  clock h 0%nat = Ok r ->
  aware_of_reading r = Ok now ->
  all_chars (fun c => negb (is_space c)) (r_zone r) = true ->
  r_gmtoff r mod 60 = 0 ->
  matches output_regex (stdout_text (script h)) = true.
Proof.
  intros Hc Ha Hz Hm.
  rewrite (stdout_text_run h r now Hc Ha).
  destruct (aware_of_reading_ok r now Ha) as (Hv & Hg & _).
  apply matches_iff. now apply expected_line_lang.
Qed.

Lemma output_matches_regex_witness :
  matches output_regex (stdout_text (script host_pdt)) = true.
Proof.
  apply (output_matches_regex host_pdt
           (reading_of 2024 3 15 14 7 42 123456 (-25200) "PDT")
           {| year := 2024; month := 3; day := 15; hour := 14; minute := 7;
              second := 42; microsecond := 123456;
              tzinfo := Some {| _offset := timedelta_new 0 (-25200) 0;
                                _name := "PDT" |} |});
    reflexivity.
Defined.

(** C1 as stated fails: a run that succeeds with a zone name that has
    spaces, or with an offset that has seconds, writes a line outside the
    pattern. *)
Lemma output_regex_counterexample :
  (exit_status (script host_spaces) = 0 /\
   stdout_text (script host_spaces)
   = "2024-01-15 09:30:00 Pacific Standard Time (-0800)" ++ String nl "" /\
   matches output_regex (stdout_text (script host_spaces)) = false) /\
  (exit_status (script host_lmt) = 0 /\
   stdout_text (script host_lmt)
   = "2024-03-15 14:07:42 LMT (+001932)" ++ String nl "" /\
   matches output_regex (stdout_text (script host_lmt)) = false).
Proof. repeat split; vm_compute; reflexivity. Qed.

(** *** The parts of a printed line *)

Lemma line_split (dt zone off : string) :
  (dt ++ " " ++ zone ++ " (" ++ off ++ ")") ++ String nl ""
  = (dt ++ " " ++ zone ++ " ") ++ String "(" (off ++ String ")" (String nl "")).
Proof. rewrite !append_assoc. reflexivity. Qed.

Lemma offset_text_no_paren (g : Z) :
  -86400 < g < 86400 ->
  all_chars (fun x => negb (Ascii.eqb x "("))
            (offset_text g ++ String ")" (String nl "")) = true.
Proof.
  intros Hg. destruct (offset_parts g Hg) as (Hh & Hmm & Hs & _).
  rewrite all_chars_app.
  assert (Hsign : negb (Ascii.eqb (sign_char g) "(") = true)
    by (unfold sign_char; destruct (g <? 0); reflexivity).
  destruct (Z.eq_dec (g mod 60) 0) as [Hm|Hm].
  - rewrite (offset_text_whole g Hg Hm). cbn [all_chars].
    rewrite Hsign, all_chars_app.
    rewrite !decimal_not_paren by (apply two_decimal; lia). reflexivity.
  - rewrite (offset_text_seconds g Hg Hm). cbn [all_chars].
    rewrite Hsign, !all_chars_app.
    rewrite !decimal_not_paren by (apply two_decimal; lia). reflexivity.
Qed.

(** The offset field of a printed line is the rendered offset, up to the
    closing parenthesis and the newline. *)
Lemma offset_field_line (r : reading) :
  -86400 < r_gmtoff r < 86400 ->
  offset_field (expected_line r ++ String nl "")
  = Some (offset_text (r_gmtoff r) ++ String ")" (String nl "")).
Proof.
  intros Hg. unfold offset_field, expected_line.
  rewrite line_split. apply after_last_app. now apply offset_text_no_paren.
Qed.

(** The date/time portion of a printed line is its date and time. *)
Lemma date_time_portion_line (r : reading) :
  date_time_portion (expected_line r ++ String nl "")
  = date_time_text (r_year r) (r_mon r) (r_mday r)
                   (r_hour r) (r_min r) (Z.min (r_sec r) 59).
Proof.
  unfold date_time_portion, expected_line, date_time_text, two, four.
  rewrite !append_assoc. reflexivity.
Qed.

Lemma read_char_same (c : ascii) (s : string) :
  read_char c (String c s) = Some s.
Proof. unfold read_char. now rewrite Ascii.eqb_refl. Qed.

(** Reading the rendered offset back gives the offset. *)
Lemma parse_offset_text (g : Z) :
  -86400 < g < 86400 ->
  parse_offset (offset_text g ++ String ")" (String nl ""))
  = Some (timedelta_new 0 g 0).
Proof.
  intros Hg. destruct (offset_parts g Hg) as (Hh & Hmm & Hs & Hsum).
  assert (Hsign : (if Ascii.eqb (sign_char g) "+" then Some 1
                   else if Ascii.eqb (sign_char g) "-" then Some (-1)
                        else None)
                  = Some (if g <? 0 then -1 else 1))
    by (unfold sign_char; destruct (g <? 0); reflexivity).
  destruct (Z.eq_dec (g mod 60) 0) as [Hm|Hm].
  - rewrite (offset_text_whole g Hg Hm). unfold two.
    cbn [append parse_offset]. rewrite Hsign. cbn [obind].
    do 2 (rewrite read_two by lia; cbn [obind]).
    rewrite read_two_none by reflexivity. cbn [obind].
    do 2 (rewrite read_char_same; cbn [obind]).
    destruct (Z.ltb_spec (Z.abs g mod 3600 / 60) 60); [|lia].
    cbn [andb Z.ltb Z.compare]. apply abs_mod_60 in Hm.
    do 2 f_equal. destruct (Z.ltb_spec g 0); lia.
  - rewrite (offset_text_seconds g Hg Hm). unfold two.
    cbn [append parse_offset]. rewrite Hsign. cbn [obind].
    do 3 (rewrite read_two by lia; cbn [obind]).
    do 2 (rewrite read_char_same; cbn [obind]).
    destruct (Z.ltb_spec (Z.abs g mod 3600 / 60) 60); [|lia].
    destruct (Z.ltb_spec (Z.abs g mod 60) 60); [|lia].
    cbn [andb]. do 2 f_equal. destruct (Z.ltb_spec g 0); lia.
Qed.

(** C2, as amended.  For every local timestamp obtained at invocation the
    output is the four-digit year and the two-digit zero-filled month,
    day, hour (0 to 23), minute and second, the zone name, and in
    parentheses the offset of the zone attached by [astimezone()]: its
    signed four-digit rendering when it is a whole number of minutes,
    followed by two digits of seconds otherwise.  The offset field reads
    back as that offset. *)
Theorem offset_field_renders_offset (h : Host) (r : reading) (now : datetime) :
  clock h 0%nat = Ok r ->
  aware_of_reading r = Ok now ->
  date_time_portion (stdout_text (script h))
  = date_time_text (year now) (month now) (day now)
                   (hour now) (minute now) (second now) /\
  0 <= hour now <= 23 /\
  offset_field (stdout_text (script h))
  = Some (offset_text (r_gmtoff r) ++ String ")" (String nl "")) /\
  (let? z := offset_field (stdout_text (script h)) in parse_offset z)%option
  = utcoffset now /\
  utcoffset now = Some (timedelta_new 0 (r_gmtoff r) 0) /\
  (r_gmtoff r mod 60 = 0 -> offset_text (r_gmtoff r) = hhmm (r_gmtoff r)) /\
  (r_gmtoff r mod 60 <> 0 ->
   offset_text (r_gmtoff r)
   = hhmm (r_gmtoff r) ++ two (Z.abs (r_gmtoff r) mod 60)).
Proof.
  intros Hc Ha.
  rewrite (stdout_text_run h r now Hc Ha).
  destruct (aware_of_reading_ok r now Ha) as (Hv & Hg & ->).
  destruct (offset_parts _ Hg) as (_ & _ & Hs & _).
  unfold valid_fields in Hv.
  cbn [year month day hour minute second utcoffset tzinfo option_map _offset].
  rewrite (offset_field_line r Hg). cbn [obind].
  rewrite (parse_offset_text _ Hg).
  split; [apply date_time_portion_line|].
  split; [lia|].
  do 3 (split; [reflexivity|]).
  split.
  - intros Hm. apply abs_mod_60 in Hm. unfold offset_text. rewrite Hm.
    apply append_empty_r.
  - intros Hm. rewrite <- abs_mod_60 in Hm. unfold offset_text.
    destruct (Z.eqb_spec (Z.abs (r_gmtoff r) mod 60) 0); [contradiction|].
    now rewrite fmt_0d_two by lia.
Qed.

Lemma offset_field_renders_offset_witness :
  offset_field (stdout_text (script host_pdt))
  = Some (offset_text (-25200) ++ String ")" (String nl "")).
Proof.
  apply (offset_field_renders_offset host_pdt
           (reading_of 2024 3 15 14 7 42 123456 (-25200) "PDT")
           {| year := 2024; month := 3; day := 15; hour := 14; minute := 7;
              second := 42; microsecond := 123456;
              tzinfo := Some {| _offset := timedelta_new 0 (-25200) 0;
                                _name := "PDT" |} |});
    reflexivity.
Defined.

(** C2 as stated fails: with an offset of 19 minutes 32 seconds the
    offset field is [+001932], not the four-digit [+0019]. *)
Lemma offset_field_counterexample :
  exit_status (script host_lmt) = 0 /\
  clock host_lmt 0%nat = Ok (reading_of 2024 3 15 14 7 42 0 1172 "LMT") /\
  offset_field (stdout_text (script host_lmt))
  = Some ("+001932)" ++ String nl "") /\
  hhmm 1172 = "+0019" /\
  offset_field (stdout_text (script host_lmt))
  <> Some (hhmm 1172 ++ ")" ++ String nl "").
Proof.
  repeat split; try (vm_compute; reflexivity).
  vm_compute. intros H. discriminate H.
Qed.

(** *** Reading a printed line back *)

(** The fixed-width layout reads back as its fields, without
    microseconds. *)
Lemma parse_date_time_text (y m dd hh mm ss us : Z) (tz : option timezone) :
  valid_fields y m dd hh mm ss us ->
  parse_date_time (date_time_text y m dd hh mm ss) tz
  = Some {| year := y; month := m; day := dd; hour := hh; minute := mm;
            second := ss; microsecond := 0; tzinfo := tz |}.
Proof.
  intros Hv.
  assert (Hnew : datetime_new y m dd hh mm ss 0 tz
                 = Ok {| year := y; month := m; day := dd; hour := hh;
                         minute := mm; second := ss; microsecond := 0;
                         tzinfo := tz |}).
  { apply datetime_new_ok. split; [|reflexivity].
    unfold valid_fields in *. lia. }
  unfold valid_fields, MINYEAR, MAXYEAR in Hv.
  pose proof (days_in_month_le_31 y m).
  unfold parse_date_time, date_time_text, two, four. cbn [append].
  rewrite read_four by lia. cbn [obind].
  do 5 (rewrite read_char_same; cbn [obind];
        rewrite read_two by lia; cbn [obind]).
  now rewrite Hnew.
Qed.

(** The whole line reads back as the aware timestamp of the reading,
    without microseconds. *)
Lemma parse_line_run (r : reading) :
  valid_fields (r_year r) (r_mon r) (r_mday r) (r_hour r) (r_min r)
               (Z.min (r_sec r) 59) (r_usec r) ->
  -86400 < r_gmtoff r < 86400 ->
  parse_line (expected_line r ++ String nl "")
  = Some {| year := r_year r; month := r_mon r; day := r_mday r;
            hour := r_hour r; minute := r_min r;
            second := Z.min (r_sec r) 59; microsecond := 0;
            tzinfo := Some {| _offset := timedelta_new 0 (r_gmtoff r) 0;
                              _name := "" |} |}.
Proof.
  intros Hv Hg. unfold parse_line.
  rewrite (offset_field_line r Hg). cbn [obind].
  rewrite (parse_offset_text _ Hg). cbn [obind].
  rewrite date_time_portion_line.
  now apply parse_date_time_text with (us := r_usec r).
Qed.

(** C3.  For every instant read from the clock, the date/time portion of
    the printed line parses back, with the inverse of the format, to a
    timestamp that the reading exceeds by its microseconds only: less
    than one second, hence within the tolerance of 5 seconds. *)
Theorem date_time_round_trip (h : Host) (r : reading) (now : datetime) :
  clock h 0%nat = Ok r ->
  aware_of_reading r = Ok now ->
  exists p naive t,
    parse_date_time (date_time_portion (stdout_text (script h))) None = Some p /\
    replace now (microsecond now) None = Ok naive /\
    datetime_sub naive p = Ok t /\
    _to_microseconds t = microsecond now /\
    0 <= _to_microseconds t < 1000000 /\
    Z.abs (_to_microseconds t) <= 5 * 1000000.
Proof.
  intros Hc Ha.
  rewrite (stdout_text_run h r now Hc Ha).
  destruct (aware_of_reading_ok r now Ha) as (Hv & Hg & ->).
  rewrite date_time_portion_line.
  rewrite (parse_date_time_text _ _ _ _ _ _ _ None Hv).
  unfold replace. cbn [year month day hour minute second microsecond].
  destruct (datetime_new _ _ _ _ _ _ (r_usec r) None) as [naive|e] eqn:Hn.
  - apply datetime_new_ok in Hn as [_ ->].
    eexists _, _, _. split; [reflexivity|]. split; [reflexivity|].
    unfold datetime_sub, utcoffset, toordinal, timedelta_new.
    cbn [year month day hour minute second microsecond tzinfo option_map].
    split; [reflexivity|]. cbn [_to_microseconds].
    unfold valid_fields in Hv. lia.
  - assert (Hok := proj2 (datetime_new_ok _ _ _ _ _ _ _ None _)
                     (conj Hv eq_refl)).
    rewrite Hok in Hn. discriminate Hn.
Qed.

Lemma date_time_round_trip_witness :
  exists p naive t,
    parse_date_time (date_time_portion (stdout_text (script host_pdt))) None
    = Some p /\
    replace {| year := 2024; month := 3; day := 15; hour := 14; minute := 7;
               second := 42; microsecond := 123456;
               tzinfo := Some {| _offset := timedelta_new 0 (-25200) 0;
                                 _name := "PDT" |} |} 123456 None
    = Ok naive /\
    datetime_sub naive p = Ok t /\
    _to_microseconds t = 123456 /\
    0 <= _to_microseconds t < 1000000 /\
    Z.abs (_to_microseconds t) <= 5 * 1000000.
Proof.
  apply (date_time_round_trip host_pdt
           (reading_of 2024 3 15 14 7 42 123456 (-25200) "PDT")
           {| year := 2024; month := 3; day := 15; hour := 14; minute := 7;
              second := 42; microsecond := 123456;
              tzinfo := Some {| _offset := timedelta_new 0 (-25200) 0;
                                _name := "PDT" |} |});
    reflexivity.
Defined.



(** The date/time portions alone are wall-clock times: across the end of
    daylight saving time they step back although the readings advance. *)
Lemma fallback_wall_clock_steps_back :
  exists now1 now2 p1 p2 t,
    local_timestamp host_before_fallback = Ok now1 /\
    local_timestamp host_after_fallback = Ok now2 /\
    datetime_le now1 now2 /\
    parse_date_time
      (date_time_portion (stdout_text (script host_before_fallback))) None
    = Some p1 /\
    parse_date_time
      (date_time_portion (stdout_text (script host_after_fallback))) None
    = Some p2 /\
    datetime_sub p1 p2 = Ok t /\ 0 < _to_microseconds t.
Proof.
  eexists _, _, _, _, _.
  split; [reflexivity|]. split; [reflexivity|].
  split; [eexists; split; [reflexivity | vm_compute; intros E; discriminate E]|].
  split; [vm_compute; reflexivity|]. split; [vm_compute; reflexivity|].
  split; [reflexivity | reflexivity].
Qed.

(** *** Effects and exit status *)







(** C8.  A fault of the clock and timezone subsystem is not handled: it
    reaches the top level as it was raised, the exit status is not 0,
    nothing is written to standard output, and the clock is not read a
    second time. *)
Theorem clock_fault_propagates (h : Host) (e : exn) :
  clock h 0%nat = Raise e ->
  uncaught (script h) = Some e /\
  exit_status (script h) <> 0 /\
  effects (script h) = [Traceback e] /\
  written Stdout (effects (script h)) = [] /\
  clock_reads (script h) = 1%nat.
Proof.
  intros Hc. rewrite (script_clock_fault h e Hc).
  repeat split. intros E. discriminate E.
Qed.

Lemma clock_fault_propagates_witness :
  clock host_fault 1%nat
  = Ok (reading_of 2024 3 15 14 7 42 0 0 "UTC") /\
  uncaught (script host_fault) = Some OSError /\
  exit_status (script host_fault) <> 0 /\
  effects (script host_fault) = [Traceback OSError] /\
  written Stdout (effects (script host_fault)) = [] /\
  clock_reads (script host_fault) = 1%nat.
Proof.
  split; [reflexivity|].
  apply (clock_fault_propagates host_fault OSError). reflexivity.
Defined.

(** *** Microseconds and the empty zone name *)



(** C10, as amended.  When the attached timezone has an empty display
    name, the [%Z] field is empty: the line has two consecutive spaces
    between the seconds and the opening parenthesis.  When the offset is
    a whole number of minutes the output still matches the output
    pattern. *)
Theorem empty_zone_name (h : Host) (r : reading) (now : datetime) :
  clock h 0%nat = Ok r ->
  aware_of_reading r = Ok now ->
  r_zone r = "" ->
  tzname now = Some "" /\
  stdout_text (script h)
  = date_time_text (year now) (month now) (day now)
                   (hour now) (minute now) (second now)
    ++ "  (" ++ offset_text (r_gmtoff r) ++ ")" ++ String nl "" /\
  (r_gmtoff r mod 60 = 0 ->
   matches output_regex (stdout_text (script h)) = true).
Proof.
  intros Hc Ha Hz.
  rewrite (stdout_text_run h r now Hc Ha).
  destruct (aware_of_reading_ok r now Ha) as (Hv & Hg & ->).
  cbn [year month day hour minute second tzname tzinfo option_map _name].
  split; [now rewrite Hz|]. split.
  - unfold expected_line. rewrite Hz, !append_assoc. reflexivity.
  - intros Hm. apply matches_iff. apply expected_line_lang; try assumption.
    now rewrite Hz.
Qed.

Lemma empty_zone_name_witness :
  stdout_text (script host_noname)
  = "2024-03-15 14:07:42  (+0000)" ++ String nl "" /\
  matches output_regex (stdout_text (script host_noname)) = true.
Proof.
  destruct (empty_zone_name host_noname
              (reading_of 2024 3 15 14 7 42 0 0 "")
              {| year := 2024; month := 3; day := 15; hour := 14; minute := 7;
                 second := 42; microsecond := 0;
                 tzinfo := Some {| _offset := timedelta_new 0 0 0;
                                   _name := "" |} |}
              eq_refl eq_refl eq_refl) as (_ & Hout & Hmatch).
  split; [rewrite Hout; vm_compute; reflexivity | apply Hmatch; reflexivity].
Defined.

(** C10 as stated fails: with an empty name and an offset of 19 minutes
    32 seconds the line has the two spaces and is outside the pattern. *)
Lemma empty_zone_name_counterexample :
  exit_status (script host_noname_lmt) = 0 /\
  clock host_noname_lmt 0%nat
  = Ok (reading_of 2024 3 15 14 7 42 0 1172 "") /\
  stdout_text (script host_noname_lmt)
  = "2024-03-15 14:07:42  (+001932)" ++ String nl "" /\
  matches output_regex (stdout_text (script host_noname_lmt)) = false.
Proof. repeat split; vm_compute; reflexivity. Qed.

End Claims.

(* ================================================================== *)
(** * Further properties of the script *)

Module Extras.

Import Text Regex Datetime Process Spec Samples Lines.
Import TextFacts RegexFacts DatetimeFacts ProcessFacts OffsetFacts.

Local Arguments fmt_0d : simpl never.







(** X3.  A leap second is clamped: when the platform reports second 59
    or more, the datetime has second 59 and the seconds field of the
    printed line, characters 17 and 18, is [59]. *)
Theorem leap_second_prints_59 (h : Host) (r : reading) (now : datetime) :
  clock h 0%nat = Ok r ->
  aware_of_reading r = Ok now ->
  59 <= r_sec r ->
  second now = 59 /\
  substring 17 2 (stdout_text (script h)) = "59".
Proof.
  intros Hc Ha Hs.
  rewrite (stdout_text_run h r now Hc Ha).
  destruct (aware_of_reading_ok r now Ha) as (_ & _ & ->).
  cbn [second]. unfold expected_line.
  rewrite Z.min_r by lia. split; reflexivity.
Qed.

Lemma leap_second_prints_59_witness :
  r_sec (reading_of 2016 12 31 23 59 60 250000 0 "UTC") = 60 /\
  substring 17 2 (stdout_text (script host_leap)) = "59".
Proof.
  split; [reflexivity|].
  apply (leap_second_prints_59 host_leap
           (reading_of 2016 12 31 23 59 60 250000 0 "UTC")
           {| year := 2016; month := 12; day := 31; hour := 23; minute := 59;
              second := 59; microsecond := 250000;
              tzinfo := Some {| _offset := timedelta_new 0 0 0;
                                _name := "UTC" |} |});
    [reflexivity | reflexivity | cbn; lia].
Defined.

Lemma substring_prefix (a b : string) :
  substring 0 (String.length a) (a ++ b) = a.
Proof.
  induction a as [|c a IH]; cbn [String.length append substring].
  - destruct b; reflexivity.
  - now rewrite IH.
Qed.

(** X4.  The zone name the platform reports is printed verbatim, percent
    signs included: it is the name of the attached timezone and it stands
    in the output from character 20 on, between the date and time and the
    parenthesised offset. *)
Theorem zone_name_verbatim (h : Host) (r : reading) (now : datetime) :
  clock h 0%nat = Ok r ->
  aware_of_reading r = Ok now ->
  tzname now = Some (r_zone r) /\
  substring 20 (String.length (r_zone r)) (stdout_text (script h))
  = r_zone r /\
  stdout_text (script h)
  = date_time_text (year now) (month now) (day now)
                   (hour now) (minute now) (second now)
    ++ " " ++ r_zone r ++ " (" ++ offset_text (r_gmtoff r) ++ ")"
    ++ String nl "".
Proof.
  intros Hc Ha.
  rewrite (stdout_text_run h r now Hc Ha).
  destruct (aware_of_reading_ok r now Ha) as (_ & _ & ->).
  cbn [tzname tzinfo option_map _name year month day hour minute second].
  split; [reflexivity|]. unfold expected_line. rewrite !append_assoc.
  split; [|reflexivity].
  unfold date_time_text, two, four. rewrite !append_assoc.
  cbn [append substring]. apply substring_prefix.
Qed.

Lemma zone_name_verbatim_witness :
  substring 20 8 (stdout_text (script host_percent)) = "100%Z %d".
Proof.
  apply (zone_name_verbatim host_percent
           (reading_of 2024 3 15 14 7 42 0 3600 "100%Z %d")
           {| year := 2024; month := 3; day := 15; hour := 14; minute := 7;
              second := 42; microsecond := 0;
              tzinfo := Some {| _offset := timedelta_new 0 3600 0;
                                _name := "100%Z %d" |} |});
    reflexivity.
Defined.

(** *** Newlines in the output *)

Lemma count_char_app (c : ascii) (a b : string) :
  count_char c (a ++ b) = (count_char c a + count_char c b)%nat.
Proof.
  induction a as [|x a IH]; cbn [append count_char]; [reflexivity|].
  destruct (Ascii.eqb x c); now rewrite IH.
Qed.

Lemma count_char_absent (c : ascii) (s : string) :
  all_chars (fun x => negb (Ascii.eqb x c)) s = true -> count_char c s = O.
Proof.
  induction s as [|x s IH]; cbn [all_chars count_char]; [reflexivity|].
  intros H. apply andb_true_iff in H as [Hx Hs].
  apply negb_true_iff in Hx. rewrite Hx. now apply IH.
Qed.

Lemma decimal_not_nl (s : string) :
  all_chars is_decimal s = true ->
  all_chars (fun x => negb (Ascii.eqb x nl)) s = true.
Proof.
  apply all_chars_impl. intros c.
  destruct c as [[] [] [] [] [] [] [] []]; vm_compute;
    intros H; try discriminate H; reflexivity.
Qed.

Lemma four_decimal (n : Z) :
  0 <= n < 10000 -> all_chars is_decimal (four n) = true.
Proof.
  intros H. unfold four. cbn [all_chars].
  rewrite (digit_is_decimal (n / 1000)) by (apply div_digit; lia).
  rewrite (digit_is_decimal (n / 100 mod 10)) by (apply div_mod_digit; lia).
  rewrite (digit_is_decimal (n / 10 mod 10)) by (apply div_mod_digit; lia).
  rewrite (digit_is_decimal (n mod 10)) by apply mod_digit.
  reflexivity.
Qed.

Lemma date_time_text_no_nl (y m dd hh mm ss us : Z) :
  valid_fields y m dd hh mm ss us ->
  count_char nl (date_time_text y m dd hh mm ss) = O.
Proof.
  intros Hv. unfold valid_fields, MINYEAR, MAXYEAR in Hv.
  pose proof (days_in_month_le_31 y m).
  apply count_char_absent. unfold date_time_text.
  rewrite !all_chars_app.
  rewrite (decimal_not_nl (four y)) by (apply four_decimal; lia).
  rewrite (decimal_not_nl (two m)), (decimal_not_nl (two dd)),
    (decimal_not_nl (two hh)), (decimal_not_nl (two mm)),
    (decimal_not_nl (two ss)) by (apply two_decimal; lia).
  reflexivity.
Qed.

Lemma offset_text_no_nl (g : Z) :
  -86400 < g < 86400 -> count_char nl (offset_text g) = O.
Proof.
  intros Hg. destruct (offset_parts g Hg) as (Hh & Hmm & Hs & _).
  assert (Hsign : negb (Ascii.eqb (sign_char g) nl) = true)
    by (unfold sign_char; destruct (g <? 0); reflexivity).
  apply count_char_absent.
  destruct (Z.eq_dec (g mod 60) 0) as [Hm|Hm].
  - rewrite (offset_text_whole g Hg Hm). cbn [all_chars].
    rewrite Hsign, all_chars_app.
    rewrite !decimal_not_nl by (apply two_decimal; lia). reflexivity.
  - rewrite (offset_text_seconds g Hg Hm). cbn [all_chars].
    rewrite Hsign, !all_chars_app.
    rewrite !decimal_not_nl by (apply two_decimal; lia). reflexivity.
Qed.

(** X5.  The output of a successful run has one newline more than the
    zone name: it ends with the newline of [print], and it is a single
    line exactly when the zone name contains no newline. *)
Theorem newlines_of_output (h : Host) (r : reading) (now : datetime) :
  clock h 0%nat = Ok r ->
  aware_of_reading r = Ok now ->
  count_char nl (stdout_text (script h)) = S (count_char nl (r_zone r)) /\
  (count_char nl (stdout_text (script h)) = 1%nat <->
   count_char nl (r_zone r) = O).
Proof.
  intros Hc Ha.
  rewrite (stdout_text_run h r now Hc Ha).
  destruct (aware_of_reading_ok r now Ha) as (Hv & Hg & _).
  assert (Hcount : count_char nl (expected_line r ++ String nl "")
                   = S (count_char nl (r_zone r))).
  { unfold expected_line. rewrite !count_char_app.
    rewrite (date_time_text_no_nl _ _ _ _ _ _ _ Hv).
    rewrite (offset_text_no_nl _ Hg).
    change (count_char nl " ") with O.
    change (count_char nl " (") with O.
    change (count_char nl ")") with O.
    change (count_char nl (String nl "")) with 1%nat. lia. }
  split; [exact Hcount|]. rewrite Hcount. split; intros E; lia.
Qed.

Lemma newlines_of_output_witness :
  count_char nl (stdout_text (script host_pdt)) = 1%nat.
Proof.
  apply (newlines_of_output host_pdt
           (reading_of 2024 3 15 14 7 42 123456 (-25200) "PDT")
           {| year := 2024; month := 3; day := 15; hour := 14; minute := 7;
              second := 42; microsecond := 123456;
              tzinfo := Some {| _offset := timedelta_new 0 (-25200) 0;
                                _name := "PDT" |} |});
    reflexivity.
Defined.

(** *** The line determines the reading *)

Lemma append_cancel_l (a b c : string) : a ++ b = a ++ c -> b = c.
Proof.
  induction a as [|x a IH]; cbn [append]; intros E; [exact E|].
  injection E as E. now apply IH.
Qed.

Lemma list_of_append (a b : string) :
  list_ascii_of_string (a ++ b)
  = (list_ascii_of_string a ++ list_ascii_of_string b)%list.
Proof.
  induction a as [|x a IH]; cbn [append list_ascii_of_string];
    [reflexivity | now rewrite IH].
Qed.

Lemma append_cancel_r (a b c : string) : a ++ c = b ++ c -> a = b.
Proof.
  intros E. apply (f_equal list_ascii_of_string) in E.
  rewrite !list_of_append in E. apply app_inv_tail in E.
  rewrite <- (string_of_list_ascii_of_string a),
    <- (string_of_list_ascii_of_string b).
  now rewrite E.
Qed.

(** X6.  The printed line loses the microseconds only: two successful
    runs that print the same output had readings with the same date, the
    same time to the second (after the leap-second clamp), the same
    offset and the same zone name. *)
Theorem printed_line_determines_reading (h1 h2 : Host) (r1 r2 : reading)
  (now1 now2 : datetime) :
  clock h1 0%nat = Ok r1 -> aware_of_reading r1 = Ok now1 ->
  clock h2 0%nat = Ok r2 -> aware_of_reading r2 = Ok now2 ->
  stdout_text (script h1) = stdout_text (script h2) ->
  replace now1 0 (tzinfo now1) = replace now2 0 (tzinfo now2) /\
  r_year r1 = r_year r2 /\ r_mon r1 = r_mon r2 /\ r_mday r1 = r_mday r2 /\
  r_hour r1 = r_hour r2 /\ r_min r1 = r_min r2 /\
  Z.min (r_sec r1) 59 = Z.min (r_sec r2) 59 /\
  r_gmtoff r1 = r_gmtoff r2 /\ r_zone r1 = r_zone r2.
Proof.
  intros Hc1 Ha1 Hc2 Ha2.
  rewrite (stdout_text_run h1 r1 now1 Hc1 Ha1).
  rewrite (stdout_text_run h2 r2 now2 Hc2 Ha2).
  destruct (aware_of_reading_ok r1 now1 Ha1) as (Hv1 & Hg1 & ->).
  destruct (aware_of_reading_ok r2 now2 Ha2) as (Hv2 & Hg2 & ->).
  intros E.
  pose proof (f_equal parse_line E) as Ep.
  rewrite (Claims.parse_line_run r1 Hv1 Hg1),
    (Claims.parse_line_run r2 Hv2 Hg2) in Ep.
  injection Ep as Hy Hm Hd Hh Hmi Hs Hoff.
  assert (Hg : r_gmtoff r1 = r_gmtoff r2) by lia.
  assert (Hz : r_zone r1 = r_zone r2).
  { unfold expected_line in E. rewrite Hy, Hm, Hd, Hh, Hmi, Hs, Hg in E.
    rewrite !append_assoc in E.
    apply append_cancel_l, append_cancel_l, append_cancel_r in E.
    exact E. }
  split; [|repeat split; assumption].
  unfold replace. cbn [year month day hour minute second tzinfo].
  now rewrite Hy, Hm, Hd, Hh, Hmi, Hs, Hg, Hz.
Qed.

Lemma printed_line_determines_reading_witness :
  r_usec (reading_of 2024 3 15 14 7 42 123456 (-25200) "PDT")
  <> r_usec (reading_of 2024 3 15 14 7 42 999999 (-25200) "PDT") /\
  replace {| year := 2024; month := 3; day := 15; hour := 14; minute := 7;
             second := 42; microsecond := 123456;
             tzinfo := Some {| _offset := timedelta_new 0 (-25200) 0;
                               _name := "PDT" |} |} 0
          (Some {| _offset := timedelta_new 0 (-25200) 0; _name := "PDT" |})
  = replace {| year := 2024; month := 3; day := 15; hour := 14; minute := 7;
               second := 42; microsecond := 999999;
               tzinfo := Some {| _offset := timedelta_new 0 (-25200) 0;
                                 _name := "PDT" |} |} 0
            (Some {| _offset := timedelta_new 0 (-25200) 0; _name := "PDT" |}).
Proof.
  split; [intros E; discriminate E|].
  apply (printed_line_determines_reading host_pdt host_pdt_late
           (reading_of 2024 3 15 14 7 42 123456 (-25200) "PDT")
           (reading_of 2024 3 15 14 7 42 999999 (-25200) "PDT")
           {| year := 2024; month := 3; day := 15; hour := 14; minute := 7;
              second := 42; microsecond := 123456;
              tzinfo := Some {| _offset := timedelta_new 0 (-25200) 0;
                                _name := "PDT" |} |}
           {| year := 2024; month := 3; day := 15; hour := 14; minute := 7;
              second := 42; microsecond := 999999;
              tzinfo := Some {| _offset := timedelta_new 0 (-25200) 0;
                                _name := "PDT" |} |});
    reflexivity.
Defined.

End Extras.
